(** * Voice sample extractor (step6_voice_sample_extractor.py)

    A shallow embedding of [VoiceSampleExtractor] and the properties of
    its duration resolver, quality ladder, Twitch VOD indirection,
    username resolution, file-name sanitiser and batch loop.

    Conventions of the embedding:
    - a Python [str] is a [string]; a character is a code point below
      U+0100, so the classes [\w], [\s] and [str.lower] are given on that
      range (it is closed under [lower]);
    - a Python [int] is a [Z];
    - every external effect (child processes, the file system, the clock,
      [hash], [json.loads]) is an operation of the [Host] interface on an
      abstract world, threaded explicitly;
    - [print] calls and the logger are not part of the model. *)

From Stdlib Require Import ZArith Lia Ascii String List Bool DecimalString Sorted.
From stdpp Require Import base option list functions gmap strings.

Local Open Scope string_scope.
Local Open Scope list_scope.
Local Open Scope Z_scope.

(** ** Python built-ins used by the extractor *)

Module Py.

(** *** Characters *)

Definition code (c : ascii) : N := N_of_ascii c.

Definition between (lo hi : N) (c : ascii) : bool :=
  ((lo <=? code c) && (code c <=? hi))%N.

Definition is_code (n : N) (c : ascii) : bool := (code c =? n)%N.

(** [str.isspace], [str.strip()] and the regex class [\s]. *)
Definition isspace (c : ascii) : bool :=
  between 9 13 c || between 28 32 c || is_code 133 c || is_code 160 c.

(** White space skipped by [int(str)]. *)
Definition int_isspace (c : ascii) : bool :=
  between 9 13 c || is_code 32 c || is_code 133 c || is_code 160 c.

Definition isdecimal (c : ascii) : bool := between 48 57 c.
Definition is_upper_az (c : ascii) : bool := between 65 90 c.
Definition is_lower_az (c : ascii) : bool := between 97 122 c.

(** The regex class [[a-zA-Z0-9_]]. *)
Definition is_ascii_word (c : ascii) : bool :=
  is_lower_az c || is_upper_az c || isdecimal c || is_code 95 c.

(** The regex class [\w] on [str] patterns (Unicode matching). *)
Definition isword (c : ascii) : bool :=
  is_ascii_word c
  || is_code 170 c || is_code 178 c || is_code 179 c || is_code 181 c || is_code 185 c || is_code 186 c
  || between 188 190 c || between 192 214 c || between 216 246 c
  || between 248 255 c.

(** [str.lower] on one character. *)
Definition lower_char (c : ascii) : ascii :=
  if is_upper_az c || ((between 192 222 c) && negb (is_code 215 c))
  then ascii_of_N (code c + 32) else c.

(** *** Strings *)

Fixpoint lower (s : string) : string :=
  match s with
  | EmptyString => EmptyString
  | String c r => String (lower_char c) (lower r)
  end.

Fixpoint keep (f : ascii -> bool) (s : string) : string :=
  match s with
  | EmptyString => EmptyString
  | String c r => if f c then String c (keep f r) else keep f r
  end.

Fixpoint take (n : nat) (s : string) : string :=
  match n, s with
  | S n', String c r => String c (take n' r)
  | _, _ => EmptyString
  end.

Fixpoint drop (n : nat) (s : string) : string :=
  match n, s with
  | S n', String _ r => drop n' r
  | _, _ => s
  end.

Definition is_empty (s : string) : bool :=
  match s with EmptyString => true | _ => false end.

(** [s[-n:]] for a positive [n]. *)
Definition last_n (n : nat) (s : string) : string :=
  drop (String.length s - n)%nat s.

Fixpoint lstrip_by (f : ascii -> bool) (s : string) : string :=
  match s with
  | String c r => if f c then lstrip_by f r else s
  | EmptyString => EmptyString
  end.

Fixpoint rstrip_by (f : ascii -> bool) (s : string) : string :=
  match s with
  | EmptyString => EmptyString
  | String c r =>
      let r' := rstrip_by f r in
      if is_empty r' && f c then EmptyString else String c r'
  end.

Definition strip_by (f : ascii -> bool) (s : string) : string :=
  rstrip_by f (lstrip_by f s).

(** [s.strip()] *)
Definition strip (s : string) : string := strip_by isspace s.

Definition startswith (p s : string) : bool := String.prefix p s.

(** [sub in s] *)
Fixpoint contains (sub s : string) : bool :=
  startswith sub s
  || match s with
     | EmptyString => false
     | String _ r => contains sub r
     end.

Fixpoint endswith (p s : string) : bool :=
  String.eqb p s
  || match s with
     | EmptyString => false
     | String _ r => endswith p r
     end.

(** [s.split(sep)] for a one-character separator: the current field is
    accumulated in front of the fields of the rest. *)
Fixpoint split (sep : ascii) (s : string) : list string :=
  match s with
  | EmptyString => [EmptyString]
  | String c r =>
      if Ascii.eqb c sep then EmptyString :: split sep r
      else match split sep r with
           | f :: fs => String c f :: fs
           | [] => [String c EmptyString]
           end
  end.

(** [re.sub(r'C+', rep, s)] for a character class [C]: every maximal run
    of characters of the class becomes one [rep]. *)
Fixpoint sub_runs (f : ascii -> bool) (rep : ascii) (in_run : bool)
    (s : string) : string :=
  match s with
  | EmptyString => EmptyString
  | String c r =>
      if f c then
        if in_run then sub_runs f rep true r
        else String rep (sub_runs f rep true r)
      else String c (sub_runs f rep false r)
  end.

(** [str(n)] for an [int]. *)
Definition str_of_int (n : Z) : string :=
  NilZero.string_of_int (Z.to_int n).

(** *** Exceptions *)

Inductive exn : Set :=
| TypeError | ValueError | AttributeError | RecursionError | OtherError.

Definition exc (A : Type) : Type := exn + A.
Definition ret {A} (a : A) : exc A := inr a.
Definition raise {A} (e : exn) : exc A := inl e.
Definition bind {A B} (m : exc A) (k : A -> exc B) : exc B :=
  match m with
  | inl e => inl e
  | inr a => k a
  end.

(** *** [int(...)] and [float(...)] *)

Definition digit_value (c : ascii) : Z := Z.of_N (code c) - 48.

(** The digits of an integer literal: decimal digits, single
    underscores allowed between two digits only. *)
Fixpoint int_digits (after_digit : bool) (s : string) : option (list Z) :=
  match s with
  | EmptyString => if after_digit then Some [] else None
  | String c r =>
      if isdecimal c then cons (digit_value c) <$> int_digits true r
      else if is_code 95 c && after_digit then int_digits false r
      else None
  end.

Definition digits_value (ds : list Z) : Z :=
  fold_left (fun acc d => 10 * acc + d) ds 0.

(** [int(s)] for a [str]: surrounding white space is skipped, then an
    optional sign, then the digits; anything else is a [ValueError], and
    so is a literal of more than [max_str_digits] digits when that limit
    is set (0 disables it, as [sys.set_int_max_str_digits] does). *)
Definition int_of_str (max_str_digits : nat) (s : string) : exc Z :=
  let t := strip_by int_isspace s in
  let '(sign, body) :=
    match t with
    | String "+" r => (1, r)
    | String "-" r => ((-1), r)
    | _ => (1, t)
    end in
  match int_digits false body with
  | Some ds =>
      if (0 <? max_str_digits)%nat && (max_str_digits <? length ds)%nat
      then raise ValueError
      else ret (sign * digits_value ds)
  | None => raise ValueError
  end.

(** [int(x)] and [float(x)] where [x] is a [list]: neither accepts a
    list, both raise [TypeError]. *)
Definition int_of_list (x : list string) : exc Z := raise TypeError.
Definition float_of_list (x : list string) : exc Z := raise TypeError.

(** [int(f)] of a float (truncation); the float is only ever obtained
    from [float_of_list], so it is carried as an integer. *)
Definition int_of_float (f : Z) : Z := f.

(** [s.replace(old, new)] for a non-empty [old]: occurrences are replaced
    from the left, without overlap; [skip] counts the characters of an
    occurrence still to be passed over. *)
Fixpoint replace_from (old new : string) (skip : nat) (s : string) : string :=
  match s with
  | EmptyString => EmptyString
  | String c r =>
      match skip with
      | S k => replace_from old new k r
      | O =>
          if startswith old s
          then String.append new (replace_from old new (String.length old - 1) r)
          else String c (replace_from old new 0 r)
      end
  end.

Definition replace (old new s : string) : string := replace_from old new 0 s.

(** [s.count(c)] for one character. *)
Fixpoint count_char (c : ascii) (s : string) : nat :=
  match s with
  | EmptyString => 0%nat
  | String d r => ((if Ascii.eqb c d then 1 else 0) + count_char c r)%nat
  end.

(** [os.path.join(a, b)] (POSIX). *)
Definition path_join (a b : string) : string :=
  if startswith "/" b then b
  else if is_empty a || endswith "/" a then String.append a b
  else String.append a (String.append "/" b).

(** *** The regular expressions of the extractor

    Every pattern of the source has the shape [lit([^...]+)tail]: a
    literal, one group of one or more characters outside an excluded
    set, and a literal tail (empty in all patterns but one). *)

Record pattern : Set := Pattern {
  literal : string;
  excluded : string;
  tail : string
}.

Definition in_class (cls : string) (c : ascii) : bool :=
  negb (is_empty (keep (Ascii.eqb c) cls)).

(** The group at the head of [s]: the greedy run of admissible
    characters, shortened only as far as needed for [tl] to follow. *)
Fixpoint match_group (excl tl : string) (s : string) : option string :=
  match s with
  | EmptyString => None
  | String c r =>
      if in_class excl c then None
      else match match_group excl tl r with
           | Some g => Some (String c g)
           | None => if startswith tl r then Some (String c EmptyString) else None
           end
  end.

Definition match_here (p : pattern) (s : string) : option string :=
  if startswith (literal p) s
  then match_group (excluded p) (tail p) (drop (String.length (literal p)) s)
  else None.

(** [re.search(p, s)], returning [group(1)] of the leftmost match. *)
Fixpoint re_search (p : pattern) (s : string) : option string :=
  match match_here p s with
  | Some g => Some g
  | None =>
      match s with
      | EmptyString => None
      | String _ r => re_search p r
      end
  end.

End Py.

Notation "x <- m ;; k" := (Py.bind m (fun x => k))
  (at level 100, m at next level, right associativity).

(** ** Data model *)

(** Values held by a link record. *)
Inductive pyval : Set :=
| VNone
| VBool (b : bool)
| VInt (n : Z)
| VStr (s : string).

(** A link record is a Python [dict] with string keys. *)
Abbreviation dict := (gmap string pyval).

(** Records are passed by reference and updated in place: the caller's
    list holds references into a store of records. *)
Abbreviation ref := nat.
Abbreviation store := (ref -> dict).

(** Truth value of an object ([if v], [not v], [a or b]). *)
Definition truthy (v : pyval) : bool :=
  match v with
  | VNone => false
  | VBool b => b
  | VInt n => negb (n =? 0)
  | VStr s => negb (Py.is_empty s)
  end.

(** [str(v)], also what an f-string writes for [{v}]. *)
Definition py_str (v : pyval) : string :=
  match v with
  | VNone => "None"
  | VBool true => "True"
  | VBool false => "False"
  | VInt n => Py.str_of_int n
  | VStr s => s
  end.

(** [d.get(k, default)] *)
Definition dict_get (d : dict) (k : string) (default : pyval) : pyval :=
  match d !! k with
  | Some v => v
  | None => default
  end.

(** [d.update(items)]: the items are written in order over [d]. *)
Definition dict_update (d : dict) (items : list (string * pyval)) : dict :=
  fold_left (fun m kv => <[kv.1 := kv.2]> m) items d.

(** The dictionary returned by one extraction attempt; the keys that
    only a success carries are optional. *)
Record result : Set := Result {
  success : bool;
  file_path : option string;
  status : string;
  actual_duration : option Z;
  file_size : option Z
}.

Definition failure (st : string) : result :=
  Result false None st None None.

(** The constructor arguments of [VoiceSampleExtractor]. *)
Record config : Set := Config {
  output_dir : string;
  min_duration : Z;
  max_duration : Z;
  quality : string
}.

(** Defaults of [__init__]. *)
Definition default_config : config := Config "voice_samples" 30 3600 "192".

(** ** The host: everything outside the process *)

(** How [subprocess.run(cmd, capture_output=True, text=True, timeout=t)]
    ends. *)
Inductive run_outcome : Set :=
| Completed (returncode : Z) (stdout : string)
| TimeoutExpired (message : string)
| RunFailed (message : string).

(** What [json.loads] and the two [.get] calls make of one line of the
    listing: an exception (the text is not JSON, or not a JSON object), or
    an object, of which the extractor reads the keys [webpage_url], [url]
    and [title]; a key maps to [None] for JSON [null] and to [Some s] for
    a JSON string, the two kinds of value the listing tool writes there. *)
Inductive json_outcome : Type :=
| JsonRaises (message : string)
| JsonObject (members : gmap string (option string)).

Class Host (W : Type) : Type := {
  (** [subprocess.run]: the outcome and the world after the call. *)
  subprocess_run : list string -> Z -> W -> run_outcome * W;
  (** [os.path.exists] and [os.path.getsize] read one file-system state:
      [Some n] for a path that exists, with its size. *)
  path_size : string -> W -> option Z;
  (** [int(time.time())]; reading the clock may find it advanced. *)
  time_time : W -> Z * W;
  (** [time.sleep(seconds)] *)
  time_sleep : Z -> W -> W;
  (** [hash(v)], fixed for the life of the process. *)
  py_hash : pyval -> Z;
  json_loads : string -> json_outcome;
  (** [str(e)] for an exception raised by the interpreter itself. *)
  exn_text : Py.exn -> string;
  (** [sys.get_int_max_str_digits()] *)
  int_max_str_digits : nat;
  (** Nesting of calls the interpreter allows before [RecursionError],
      counted in calls of [_extract_twitch_sample]. *)
  recursion_limit : nat
}.

(** ** The extractor *)

Section Extractor.

Context {W : Type} `{Host W}.

(** The extractor object: its attributes are fixed by [__init__]. *)
Variable self : config.

Definition as_strings (cmd : list pyval) : option (list string) :=
  mapM (fun v => match v with VStr s => Some s | _ => None end) cmd.

(** [subprocess.run(cmd, ..., timeout=t)]: an argument that is not a
    string is refused with [TypeError] before any process is started. *)
Definition run (cmd : list pyval) (timeout : Z) (w : W) : run_outcome * W :=
  match as_strings cmd with
  | Some argv => subprocess_run argv timeout w
  | None => (RunFailed (exn_text Py.TypeError), w)
  end.

Definition int (s : string) : Py.exc Z := Py.int_of_str int_max_str_digits s.

(** *** Duration *)

(** The [try] block of [_parse_duration_string]. In the second and third
    branch the source converts [parts], the list, not an element of it. *)
Definition parse_duration_try (duration_str : string) : Py.exc Z :=
  let parts := Py.split ":" duration_str in
  if (length parts =? 3)%nat then
    h <- int (nth 0 parts "") ;;
    m <- int (nth 1 parts "") ;;
    s <- int (nth 2 parts "") ;;
    Py.ret (h * 3600 + m * 60 + s)
  else if (length parts =? 2)%nat then
    m <- Py.int_of_list parts ;;
    s <- int (nth 1 parts "") ;;
    Py.ret (m * 60 + s)
  else
    f <- Py.float_of_list parts ;;
    Py.ret (Py.int_of_float f).

Definition _parse_duration_string (duration_str : string) : Z :=
  match parse_duration_try duration_str with
  | inr total => total
  | inl _ => 0
  end.

(** The command line of the duration probe. *)
Definition duration_probe (url : pyval) : list pyval :=
  [VStr "yt-dlp"; VStr "--get-duration"; VStr "--quiet"; VStr "--no-warnings"; url].

(** [max(self.min_duration, min(total_seconds, self.max_duration))] *)
Definition clamp (total_seconds : Z) : Z :=
  Z.max (min_duration self) (Z.min total_seconds (max_duration self)).

Definition _get_optimal_duration (url platform : pyval) (w : W) : Z * W :=
  match run (duration_probe url) 30 w with
  | (Completed returncode stdout, w1) =>
      if (returncode =? 0) && negb (Py.is_empty (Py.strip stdout)) then
        let duration_str := Py.strip stdout in
        let total_seconds := _parse_duration_string duration_str in
        if 0 <? total_seconds then (clamp total_seconds, w1)
        else (max_duration self, w1)
      else (max_duration self, w1)
  | (TimeoutExpired _, w1) => (max_duration self, w1)
  | (RunFailed _, w1) => (max_duration self, w1)
  end.

(** *** User names *)

Definition youtube_patterns : list Py.pattern :=
  [ Py.Pattern "/channel/" "/?" "";
    Py.Pattern "/user/" "/?" "";
    Py.Pattern "/c/" "/?" "";
    Py.Pattern "/@" "/?" "";
    Py.Pattern "/watch?v=" "&" "";
    Py.Pattern "youtu.be/" "/?" "" ].

Definition twitch_patterns : list Py.pattern :=
  [ Py.Pattern "twitch.tv/" "/?" "";
    Py.Pattern "twitch.tv/" "/" "/videos" ].

Definition string_in (s : string) (l : list string) : bool :=
  existsb (String.eqb s) l.

(** The [for] loop over the YouTube patterns: the first pattern that
    matches decides. *)
Fixpoint youtube_username (patterns : list Py.pattern) (url : string)
    : option string :=
  match patterns with
  | [] => None
  | pattern :: rest =>
      match Py.re_search pattern url with
      | Some group1 =>
          let username := Py.take 20 group1 in
          if negb (Py.startswith "UC" username) then Some username
          else Some (String.append "yt_" (Py.last_n 8 username))
      | None => youtube_username rest url
      end
  end.

(** The [for] loop over the Twitch patterns: a match on a reserved word
    goes on to the next pattern. *)
Fixpoint twitch_username (patterns : list Py.pattern) (url : string)
    : option string :=
  match patterns with
  | [] => None
  | pattern :: rest =>
      match Py.re_search pattern url with
      | Some username =>
          if negb (string_in (Py.lower username) ["videos"; "clips"; "collections"])
          then Some (Py.take 20 username)
          else twitch_username rest url
      | None => twitch_username rest url
      end
  end.

(** A false [url] returns [None] at once; on a true one that is not a
    string the [in] test raises [TypeError], which the [except] clause
    swallows. *)
Definition _extract_username_from_url (url : pyval) : option string :=
  match url with
  | VStr u =>
      if Py.is_empty u then None
      else if Py.contains "youtube.com" u || Py.contains "youtu.be" u
      then youtube_username youtube_patterns u
      else if Py.contains "twitch.tv" u
      then twitch_username twitch_patterns u
      else None
  | _ => None
  end.

Definition _is_empty_value (value : pyval) : bool :=
  match value with
  | VNone => true
  | _ => string_in (Py.strip (Py.lower (py_str value))) ["nan"; ""; "none"; "null"]
  end.

Definition descriptive_words : list string :=
  ["check"; "pinned"; "moved"; "see"; "bio"; "link"; "follow"; "subscribe"].

Definition _is_descriptive_text (text : string) : bool :=
  if Py.is_empty text || (30 <? String.length text)%nat then true
  else
    let text_lower := Py.lower text in
    let word_count :=
      length (List.filter (fun w => Py.contains w text_lower) descriptive_words) in
    (1 <=? word_count)%nat || (2 <=? Py.count_char " " text)%nat.

(** The [for] loop over the identity fields of the record. *)
Fixpoint username_from_fields (link_data : dict) (fields : list string)
    : option string :=
  match fields with
  | [] => None
  | field :: rest =>
      let value := dict_get link_data field VNone in
      if truthy value && negb (_is_empty_value value) then
        let username := Py.strip (py_str value) in
        if negb (Py.is_empty username) && negb (_is_descriptive_text username)
        then Some username
        else username_from_fields link_data rest
      else username_from_fields link_data rest
  end.

Definition user_id (n : Z) : string :=
  String.append "user_" (Py.str_of_int (n mod 10000)).

(** Priorities 2 to 4 of [_extract_best_username]: an identity field,
    an id from the hash of the URL, an id from the clock. *)
Definition username_without_url (link_data : dict) (url : pyval) (w : W)
    : string * W :=
  match username_from_fields link_data
          ["username"; "screen_name"; "user_name"; "handle"] with
  | Some username => (username, w)
  | None =>
      if truthy url then (user_id (Z.abs (py_hash url)), w)
      else let '(now, w1) := time_time w in (user_id now, w1)
  end.

Definition _extract_best_username (link_data : dict) (url : pyval) (w : W)
    : string * W :=
  match _extract_username_from_url url with
  | Some username_from_url =>
      if negb (Py.is_empty username_from_url)
         && (2 <? String.length username_from_url)%nat
      then (username_from_url, w)
      else username_without_url link_data url w
  | None => username_without_url link_data url w
  end.

(** *** File names *)

Definition is_underscore (c : ascii) : bool := Py.is_code 95 c.
Definition is_hyphen (c : ascii) : bool := Py.is_code 45 c.

(** The five rewriting steps and the cut to 20 characters. *)
Definition sanitize_steps (filename : string) : string :=
  let filename := Py.keep (fun c => Py.isword c || Py.isspace c || is_hyphen c) filename in
  let filename := Py.lower filename in
  let filename := Py.sub_runs Py.isspace "_" false filename in
  let filename := Py.strip_by is_underscore (Py.sub_runs is_underscore "_" false filename) in
  let filename := Py.keep Py.is_ascii_word filename in
  if (20 <? String.length filename)%nat then Py.take 20 filename else filename.

Definition _sanitize_filename (filename : string) (w : W) : string * W :=
  if Py.is_empty filename || _is_empty_value (VStr filename) then
    let '(now, w1) := time_time w in (user_id now, w1)
  else
    let filename := sanitize_steps filename in
    if Py.is_empty filename || (String.length filename <? 2)%nat then
      let '(now, w1) := time_time w in (user_id now, w1)
    else (filename, w).

(** *** Extraction *)

Definition timeout_multiplier (duration : Z) : Z := Z.max 1 (duration / 300).

(** One rung: the process must end with exit code 0 and the output file
    must exist; [TimeoutExpired] and every other exception go on to the
    next rung. The result is the size of the file of a rung that won. *)
Definition attempt (cmd : list pyval) (timeout : Z) (output_path : string)
    (w : W) : option Z * W :=
  match run cmd timeout w with
  | (Completed returncode _, w1) =>
      if returncode =? 0 then (path_size output_path w1, w1) else (None, w1)
  | (TimeoutExpired _, w1) => (None, w1)
  | (RunFailed _, w1) => (None, w1)
  end.

(** The [for quality, timeout in quality_options] loop, the same in both
    platform methods but for the command line and the two status texts. *)
Fixpoint ladder (command : string -> list pyval)
    (succeeded : string -> string) (exhausted : string)
    (output_path : string) (duration : Z)
    (quality_options : list (string * Z)) (w : W) : result * W :=
  match quality_options with
  | [] => (failure exhausted, w)
  | (quality, timeout) :: rest =>
      match attempt (command quality) timeout output_path w with
      | (Some size, w1) =>
          (Result true (Some output_path) (succeeded quality)
                  (Some duration) (Some size), w1)
      | (None, w1) =>
          ladder command succeeded exhausted output_path duration rest w1
      end
  end.

Definition duration_tag (duration : Z) : string :=
  String.append "_duration_" (String.append (Py.str_of_int duration) "s").

Definition youtube_options (duration : Z) : list (string * Z) :=
  let m := timeout_multiplier duration in
  [(quality self, 300 * m); ("128", 240 * m); ("96", 180 * m); ("64", 120 * m)].

Definition youtube_command (url : pyval) (output_path : string)
    (duration : Z) (quality : string) : list pyval :=
  [ VStr "yt-dlp"; VStr "--extract-audio"; VStr "--audio-format"; VStr "mp3";
    VStr "--audio-quality"; VStr quality;
    VStr "--postprocessor-args";
    VStr (String.append "ffmpeg:-t " (Py.str_of_int duration));
    VStr "--output"; VStr (Py.replace ".mp3" ".%(ext)s" output_path);
    VStr "--no-playlist"; VStr "--quiet"; VStr "--no-warnings";
    VStr "--ignore-errors"; VStr "--fragment-retries"; VStr "5";
    VStr "--retries"; VStr "5"; VStr "--socket-timeout"; VStr "30"; url ].

Definition youtube_success (nickname : string) (duration : Z)
    (quality : string) : string :=
  String.append "youtube_success_"
    (String.append nickname
       (String.append "_quality_" (String.append quality (duration_tag duration)))).

Definition youtube_exhausted (nickname : string) (duration : Z) : string :=
  String.append "youtube_failed_all_qualities_"
    (String.append nickname (duration_tag duration)).

Definition _extract_youtube_sample (url : pyval) (output_path nickname : string)
    (duration : Z) (w : W) : result * W :=
  ladder (youtube_command url output_path duration)
         (youtube_success nickname duration)
         (youtube_exhausted nickname duration)
         output_path duration (youtube_options duration) w.

Definition twitch_options (duration : Z) : list (string * Z) :=
  let m := timeout_multiplier duration in
  [(quality self, 400 * m); ("128", 350 * m); ("96", 300 * m); ("64", 250 * m)].

Definition twitch_command (url : pyval) (output_path : string)
    (duration : Z) (quality : string) : list pyval :=
  [ VStr "yt-dlp"; VStr "--extract-audio"; VStr "--audio-format"; VStr "mp3";
    VStr "--audio-quality"; VStr quality;
    VStr "--postprocessor-args";
    VStr (String.append "ffmpeg:-t " (Py.str_of_int duration));
    VStr "--output"; VStr (Py.replace ".mp3" ".%(ext)s" output_path);
    VStr "--quiet"; VStr "--no-warnings";
    VStr "--ignore-errors"; VStr "--fragment-retries"; VStr "5";
    VStr "--retries"; VStr "5"; VStr "--socket-timeout"; VStr "30"; url ].

Definition twitch_success (nickname : string) (duration : Z)
    (quality : string) : string :=
  String.append "twitch_success_"
    (String.append nickname
       (String.append "_quality_" (String.append quality (duration_tag duration)))).

Definition twitch_exhausted (nickname : string) (duration : Z) : string :=
  String.append "twitch_failed_all_qualities_"
    (String.append nickname (duration_tag duration)).

Definition no_recent_vods (nickname : string) : string :=
  String.append "no_recent_vods_found_for_" nickname.

Definition vod_search_failed (nickname message : string) : string :=
  String.append "twitch_vod_search_failed_"
    (String.append nickname (String.append ": " (Py.take 100 message))).

(** The command line of the one-entry listing query. *)
Definition vod_listing (videos_url : string) : list pyval :=
  [VStr "yt-dlp"; VStr "--dump-json"; VStr "--playlist-end"; VStr "1";
   VStr "--quiet"; VStr "--no-warnings"; VStr videos_url].

(** [o.get(k)] on the parsed listing entry. *)
Definition member (o : gmap string (option string)) (k : string) : pyval :=
  match o !! k with
  | Some (Some s) => VStr s
  | _ => VNone
  end.

(** [[line for line in stdout.strip().split('\n') if line.strip()]] *)
Definition listing_lines (stdout : string) : list string :=
  List.filter (fun line => negb (Py.is_empty (Py.strip line)))
              (Py.split "010" (Py.strip stdout)).

(** [vod_info.get('webpage_url') or vod_info.get('url')] *)
Definition entry_url (vod_info : gmap string (option string)) : pyval :=
  if truthy (member vod_info "webpage_url")
  then member vod_info "webpage_url"
  else member vod_info "url".

(** [_try_get_recent_twitch_vod]; [extract] stands for the method it
    calls back, [self._extract_twitch_sample]. Everything the [try]
    block raises ends in the [except] clause. *)
Definition _try_get_recent_twitch_vod
    (extract : pyval -> string -> string -> Z -> W -> Py.exc result * W)
    (videos_url output_path nickname : string) (duration : Z) (w : W)
    : result * W :=
  match run (vod_listing videos_url) 120 w with
  | (Completed returncode stdout, w1) =>
      if (returncode =? 0) && negb (Py.is_empty (Py.strip stdout)) then
        match listing_lines stdout with
        | line0 :: _ =>
            match json_loads line0 with
            | JsonRaises message =>
                (failure (vod_search_failed nickname message), w1)
            | JsonObject vod_info =>
                let vod_url := entry_url vod_info in
                match vod_info !! "title" with
                | Some None =>
                    (* None[:30] *)
                    (failure (vod_search_failed nickname (exn_text Py.TypeError)), w1)
                | _ =>
                    if truthy vod_url then
                      match extract vod_url output_path nickname duration w1 with
                      | (inr r, w2) => (r, w2)
                      | (inl e, w2) =>
                          (failure (vod_search_failed nickname (exn_text e)), w2)
                      end
                    else (failure (no_recent_vods nickname), w1)
                end
            end
        | [] => (failure (no_recent_vods nickname), w1)
        end
      else (failure (no_recent_vods nickname), w1)
  | (TimeoutExpired message, w1) =>
      (failure (vod_search_failed nickname message), w1)
  | (RunFailed message, w1) =>
      (failure (vod_search_failed nickname message), w1)
  end.

(** [_extract_twitch_sample]. [depth] is the nesting the interpreter
    still allows: the method and [_try_get_recent_twitch_vod] call each
    other, and at the limit the call raises [RecursionError], caught as
    any exception is by the caller's [except] clause. A [url] that is
    not a string makes the first [in] test raise [TypeError]. *)
Fixpoint _extract_twitch_sample (depth : nat) (url : pyval)
    (output_path nickname : string) (duration : Z) (w : W)
    : Py.exc result * W :=
  match url with
  | VStr u =>
      if negb (Py.contains "/videos/" u) && negb (Py.contains "/clip/" u)
         && negb (Py.endswith "/videos" u)
      then
        let videos_url := String.append (Py.rstrip_by (Py.is_code 47) u) "/videos" in
        let extract :=
          match depth with
          | O => fun _ _ _ _ w' => (Py.raise Py.RecursionError, w')
          | S d => _extract_twitch_sample d
          end in
        let '(r, w1) :=
          _try_get_recent_twitch_vod extract videos_url output_path nickname duration w in
        (Py.ret r, w1)
      else
        let '(r, w1) :=
          ladder (twitch_command url output_path duration)
                 (twitch_success nickname duration)
                 (twitch_exhausted nickname duration)
                 output_path duration (twitch_options duration) w in
        (Py.ret r, w1)
  | _ => (Py.raise Py.TypeError, w)
  end.

Definition py_eq_str (v : pyval) (s : string) : bool :=
  match v with
  | VStr t => String.eqb t s
  | _ => false
  end.

Definition _extract_audio_sample (url : pyval) (filename : string)
    (platform : pyval) (nickname : string) (duration : Z) (w : W)
    : result * W :=
  let output_path := Py.path_join (output_dir self) (String.append filename ".mp3") in
  if py_eq_str platform "youtube" then
    _extract_youtube_sample url output_path nickname duration w
  else if py_eq_str platform "twitch" then
    match _extract_twitch_sample recursion_limit url output_path nickname duration w with
    | (inr r, w1) => (r, w1)
    | (inl e, w1) =>
        (failure (String.append "extraction_error_for_"
                    (String.append nickname
                       (String.append ": " (Py.take 100 (exn_text e))))), w1)
    end
  else
    (failure (String.append "unsupported_platform: " (py_str platform)), w).

(** *** The batch *)

(** How the call of [extract_voice_samples] ends. *)
Inductive completion : Set :=
| Returned (extracted_samples : list ref)
| Raised (e : Py.exn).

(** [platform.lower() if platform else 'unknown']: a true value that is
    not a string has no [lower]. *)
Definition safe_platform_of (platform : pyval) : Py.exc string :=
  if truthy platform then
    match platform with
    | VStr p => Py.ret (Py.lower p)
    | _ => Py.raise Py.AttributeError
    end
  else Py.ret "unknown".

Definition sample_filename (safe_username safe_platform : string)
    (optimal_duration timestamp : Z) : string :=
  String.append safe_username
    (String.append "_"
       (String.append safe_platform
          (String.append "_"
             (String.append (Py.str_of_int optimal_duration)
                (String.append "s_" (Py.str_of_int timestamp)))))).

Definition opt_str (o : option string) : pyval :=
  match o with
  | Some s => VStr s
  | None => VNone
  end.

(** The items of [link_data.update({...})]. *)
Definition result_fields (extraction_result : result)
    (optimal_duration : Z) (safe_username filename safe_platform username : string)
    : list (string * pyval) :=
  [ ("sample_extracted", VBool (success extraction_result));
    ("sample_file", opt_str (file_path extraction_result));
    ("extraction_status", VStr (status extraction_result));
    ("sample_duration", VInt optimal_duration);
    ("actual_duration",
      VInt (default optimal_duration (actual_duration extraction_result)));
    ("sample_quality", VStr (quality self));
    ("processed_username", VStr safe_username);
    ("sample_filename", VStr (String.append filename ".mp3"));
    ("platform_source", VStr safe_platform);
    ("original_username", VStr username) ].

(** What became of one record in the loop. *)
Inductive link_outcome : Set :=
| Skipped
| Attempted (extraction_result : result).

(** The body of the [for] loop for the record behind [link]. *)
Definition process_link (link : ref) (w : W) (h : store)
    : Py.exc link_outcome * W * store :=
  let link_data := h link in
  let url := dict_get link_data "url" (VStr "") in
  let '(username, w0) := _extract_best_username link_data url w in
  let platform := dict_get link_data "platform_type" (VStr "unknown") in
  if negb (truthy url) then (Py.ret Skipped, w0, h)
  else
    let '(optimal_duration, w1) := _get_optimal_duration url platform w0 in
    let '(safe_username, w2) := _sanitize_filename username w1 in
    match safe_platform_of platform with
    | inl e => (Py.raise e, w2, h)
    | inr safe_platform =>
        let '(timestamp, w3) := time_time w2 in
        let filename :=
          sample_filename safe_username safe_platform optimal_duration timestamp in
        let '(extraction_result, w4) :=
          _extract_audio_sample url filename platform safe_username
                                optimal_duration w3 in
        let h1 :=
          <[link := dict_update link_data
                      (result_fields extraction_result optimal_duration
                         safe_username filename safe_platform username)]> h in
        (Py.ret (Attempted extraction_result), time_sleep 2 w4, h1)
    end.

(** The [for] loop, with the list [extracted_samples] built so far. *)
Fixpoint links_loop (links : list ref) (extracted_samples : list ref)
    (w : W) (h : store) : completion * W * store :=
  match links with
  | [] => (Returned extracted_samples, w, h)
  | link :: rest =>
      match process_link link w h with
      | (inr Skipped, w1, h1) => links_loop rest extracted_samples w1 h1
      | (inr (Attempted extraction_result), w1, h1) =>
          if success extraction_result
          then links_loop rest (extracted_samples ++ [link]) w1 h1
          else links_loop rest extracted_samples w1 h1
      | (inl e, w1, h1) => (Raised e, w1, h1)
      end
  end.

Definition extract_voice_samples (confirmed_voice_links : list ref)
    (w : W) (h : store) : completion * W * store :=
  match confirmed_voice_links with
  | [] => (Returned [], w, h)
  | _ => links_loop confirmed_voice_links [] w h
  end.

End Extractor.

(** ** A scripted host

    A host whose child processes end as a script says, one entry per
    call; an entry also says whether the run leaves the output file, and
    of which size. Used to run the extractor on concrete inputs. *)

Record sim : Set := Sim {
  script : list (run_outcome * option Z);
  output_file : option Z;
  now : Z;
  calls : list (list string * Z)
}.

Definition sim_run (argv : list string) (timeout : Z) (w : sim) : run_outcome * sim :=
  match script w with
  | [] => (RunFailed "No such file or directory: yt-dlp",
           Sim [] (output_file w) (now w) (calls w ++ [(argv, timeout)]))
  | (o, leaves) :: rest =>
      (o, Sim rest
              (match leaves with Some n => Some n | None => output_file w end)
              (now w) (calls w ++ [(argv, timeout)]))
  end.

Definition sim_json (line : string) : json_outcome :=
  if String.eqb line "vod-entry"
  then JsonObject {[ "webpage_url" := Some "https://www.twitch.tv/videos/1" ]}
  else if String.eqb line "untitled-entry"
  then JsonObject {[ "title" := Some "a stream" ]}
  else JsonRaises "Expecting value: line 1 column 1 (char 0)".

Definition sim_exn_text (e : Py.exn) : string :=
  match e with
  | Py.TypeError => "unsupported operand"
  | Py.ValueError => "invalid literal"
  | Py.AttributeError => "object has no attribute"
  | Py.RecursionError => "maximum recursion depth exceeded"
  | Py.OtherError => "error"
  end.

#[export] Instance sim_host : Host sim := {|
  subprocess_run := sim_run;
  path_size := fun _ w => output_file w;
  time_time := fun w => (now w, w);
  time_sleep := fun n w => Sim (script w) (output_file w) (now w + n) (calls w);
  py_hash := fun v => match v with VStr s => Z.of_nat (String.length s) | _ => 0 end;
  json_loads := sim_json;
  exn_text := sim_exn_text;
  int_max_str_digits := 4300;
  recursion_limit := 1000
|}.

(** A world at time [t] with nothing scripted and no output file. *)
Definition quiet (t : Z) : sim := Sim [] None t [].

(** A world whose child processes end as [outcomes] say. *)
Definition scripted (outcomes : list (run_outcome * option Z)) : sim :=
  Sim outcomes None 1700000000 [].

(** A store with the record [d] behind every reference. *)
Definition store_of (d : dict) : store := fun _ => d.

(** * Vocabulary of the statements *)

(** ** Duration *)

Section DurationVocabulary.

Context {W : Type} `{Host W}.
Variable self : config.

(** The probe gave nothing to resolve a duration from: it timed out,
    could not be run, ended with a nonzero exit code, wrote nothing, or
    wrote a text that [_parse_duration_string] cannot convert. *)
Inductive probe_unusable : run_outcome -> Prop :=
| probe_timed_out message :
    probe_unusable (TimeoutExpired message)
| probe_not_run message :
    probe_unusable (RunFailed message)
| probe_exit_code returncode stdout :
    returncode <> 0 -> probe_unusable (Completed returncode stdout)
| probe_silent returncode stdout :
    Py.strip stdout = "" -> probe_unusable (Completed returncode stdout)
| probe_unparseable returncode stdout e :
    parse_duration_try (Py.strip stdout) = inl e ->
    probe_unusable (Completed returncode stdout).

End DurationVocabulary.

(** ** File names *)

(** All characters of a string satisfy a test. *)
Fixpoint all_chars (p : ascii -> bool) (s : string) : bool :=
  match s with
  | EmptyString => true
  | String c r => p c && all_chars p r
  end.

(** The characters a sanitised name is made of: [a-z], [0-9] and [_]. *)
Definition plain (c : ascii) : bool :=
  Py.is_lower_az c || Py.isdecimal c || is_underscore c.

(** A name in the form the sanitiser aims at: no underscore in front, at
    the end or doubled, and not one of the words taken for an empty
    value. *)
Definition well_formed_name (r : string) : Prop :=
  Py.startswith "_" r = false
  /\ Py.endswith "_" r = false
  /\ Py.contains "__" r = false
  /\ string_in r ["nan"; "none"; "null"] = false.

(** [_sanitize_filename] without the clock: [None] where the source
    returns the time-based name. *)
Definition sanitize_result (filename : string) : option string :=
  if Py.is_empty filename || _is_empty_value (VStr filename) then None
  else
    let r := sanitize_steps filename in
    if Py.is_empty r || (String.length r <? 2)%nat then None else Some r.

(** ** The quality ladder *)

Section LadderVocabulary.

Context {W : Type} `{Host W}.

(** A rung fails, leaving the world [w1]: the process timed out, could
    not be run, ended with a nonzero exit code, or ended with exit code
    0 without the output file being there. *)
Inductive rung_fails (cmd : list pyval) (timeout : Z) (output_path : string)
    (w : W) : W -> Prop :=
| rung_timed_out message w1 :
    run cmd timeout w = (TimeoutExpired message, w1) ->
    rung_fails cmd timeout output_path w w1
| rung_not_run message w1 :
    run cmd timeout w = (RunFailed message, w1) ->
    rung_fails cmd timeout output_path w w1
| rung_exit_code returncode stdout w1 :
    run cmd timeout w = (Completed returncode stdout, w1) ->
    returncode <> 0 ->
    rung_fails cmd timeout output_path w w1
| rung_file_missing stdout w1 :
    run cmd timeout w = (Completed 0 stdout, w1) ->
    path_size output_path w1 = None ->
    rung_fails cmd timeout output_path w w1.

(** A rung wins: exit code 0 and the output file exists, of size [size]. *)
Definition rung_wins (cmd : list pyval) (timeout : Z) (output_path : string)
    (w : W) (size : Z) (w1 : W) : Prop :=
  exists stdout,
    run cmd timeout w = (Completed 0 stdout, w1)
    /\ path_size output_path w1 = Some size.

(** The rungs of a list fail one after the other, from [w] to [w1]. *)
Inductive rungs_fail (command : string -> list pyval) (output_path : string)
    : list (string * Z) -> W -> W -> Prop :=
| rungs_fail_nil w :
    rungs_fail command output_path [] w w
| rungs_fail_cons q t rest w w1 w2 :
    rung_fails (command q) t output_path w w1 ->
    rungs_fail command output_path rest w1 w2 ->
    rungs_fail command output_path ((q, t) :: rest) w w2.


End LadderVocabulary.



(** ** Twitch channel pages *)

Section VodVocabulary.

Context {W : Type} `{Host W}.
Variable self : config.



(** The outcomes of the lookup of the most recent VOD of a channel, by
    what the one-entry listing query gives:
    - the query times out or cannot be run: search failure;
    - nonzero exit code, or no line in the output: no recent VOD;
    - the first line is not a JSON object: search failure;
    - the entry has a [null] title: search failure;
    - the entry has no URL: no recent VOD;
    - otherwise the result is that of the extraction on the URL of the
      entry, or a search failure if that raises.
    In each case but the last two nothing runs after the query. *)
Inductive vod_lookup
    (extract : pyval -> string -> string -> Z -> W -> Py.exc result * W)
    (videos_url output_path nickname : string) (duration : Z) (w : W)
    : result -> W -> Prop :=
| lookup_timed_out message w1 :
    run (vod_listing videos_url) 120 w = (TimeoutExpired message, w1) ->
    vod_lookup extract videos_url output_path nickname duration w
      (failure (vod_search_failed nickname message)) w1
| lookup_not_run message w1 :
    run (vod_listing videos_url) 120 w = (RunFailed message, w1) ->
    vod_lookup extract videos_url output_path nickname duration w
      (failure (vod_search_failed nickname message)) w1
| lookup_no_entry returncode stdout w1 :
    run (vod_listing videos_url) 120 w = (Completed returncode stdout, w1) ->
    returncode <> 0 \/ listing_lines stdout = [] ->
    vod_lookup extract videos_url output_path nickname duration w
      (failure (no_recent_vods nickname)) w1
| lookup_unparseable stdout w1 line rest message :
    run (vod_listing videos_url) 120 w = (Completed 0 stdout, w1) ->
    listing_lines stdout = line :: rest ->
    json_loads line = JsonRaises message ->
    vod_lookup extract videos_url output_path nickname duration w
      (failure (vod_search_failed nickname message)) w1
| lookup_null_title stdout w1 line rest vod_info :
    run (vod_listing videos_url) 120 w = (Completed 0 stdout, w1) ->
    listing_lines stdout = line :: rest ->
    json_loads line = JsonObject vod_info ->
    vod_info !! "title" = Some None ->
    vod_lookup extract videos_url output_path nickname duration w
      (failure (vod_search_failed nickname (exn_text Py.TypeError))) w1
| lookup_no_url stdout w1 line rest vod_info :
    run (vod_listing videos_url) 120 w = (Completed 0 stdout, w1) ->
    listing_lines stdout = line :: rest ->
    json_loads line = JsonObject vod_info ->
    vod_info !! "title" <> Some None ->
    truthy (entry_url vod_info) = false ->
    vod_lookup extract videos_url output_path nickname duration w
      (failure (no_recent_vods nickname)) w1
| lookup_found stdout w1 line rest vod_info r w2 :
    run (vod_listing videos_url) 120 w = (Completed 0 stdout, w1) ->
    listing_lines stdout = line :: rest ->
    json_loads line = JsonObject vod_info ->
    vod_info !! "title" <> Some None ->
    truthy (entry_url vod_info) = true ->
    extract (entry_url vod_info) output_path nickname duration w1 = (inr r, w2) ->
    vod_lookup extract videos_url output_path nickname duration w r w2
| lookup_extraction_raised stdout w1 line rest vod_info e w2 :
    run (vod_listing videos_url) 120 w = (Completed 0 stdout, w1) ->
    listing_lines stdout = line :: rest ->
    json_loads line = JsonObject vod_info ->
    vod_info !! "title" <> Some None ->
    truthy (entry_url vod_info) = true ->
    extract (entry_url vod_info) output_path nickname duration w1 = (inl e, w2) ->
    vod_lookup extract videos_url output_path nickname duration w
      (failure (vod_search_failed nickname (exn_text e))) w2.

End VodVocabulary.

(** ** The batch *)

Section BatchVocabulary.

Context {W : Type} `{Host W}.
Variable self : config.

(** [link_data.get('url', '')] *)
Definition link_url (d : dict) : pyval := dict_get d "url" (VStr "").

(** The platform of the record is a string, [None], or not given. *)
Definition platform_text (d : dict) : bool :=
  match d !! "platform_type" with
  | None | Some VNone | Some (VStr _) => true
  | Some (VBool _) | Some (VInt _) => false
  end.

(** The outcome of one extraction attempt is written on the record. *)
Definition recorded (d : dict) (r : result) : Prop :=
  d !! "sample_extracted" = Some (VBool (success r))
  /\ d !! "extraction_status" = Some (VStr (status r))
  /\ d !! "sample_quality" = Some (VStr (quality self)).

(** No outcome is written on the record. *)
Definition unrecorded (d : dict) : Prop :=
  d !! "sample_extracted" = None /\ d !! "extraction_status" = None.

Definition succeeded (o : link_outcome) : bool :=
  match o with
  | Attempted r => success r
  | Skipped => false
  end.

(** What becomes of each link in turn, with the world and the store
    handed from one link to the next; the list ends where a link
    raises. *)
Fixpoint outcomes (links : list ref) (w : W) (h : store)
    : list (ref * link_outcome) :=
  match links with
  | [] => []
  | link :: rest =>
      match process_link self link w h with
      | (inr o, w1, h1) => (link, o) :: outcomes rest w1 h1
      | (inl _, _, _) => []
      end
  end.

(** The links whose extraction succeeded, in the order of the input. *)
Definition winners (links : list ref) (w : W) (h : store) : list ref :=
  List.map fst (List.filter (fun p => succeeded p.2) (outcomes links w h)).

End BatchVocabulary.

(** ** Concrete inputs *)

(** A YouTube link, a link without URL and a Twitch channel link. *)
Definition youtube_link : dict :=
  {[ "url" := VStr "https://youtube.com/@creator1/watch?v=abc";
     "platform_type" := VStr "youtube" ]}.

Definition link_without_url : dict :=
  {[ "url" := VStr ""; "platform_type" := VStr "youtube";
     "username" := VStr "somebody" ]}.

Definition twitch_link : dict :=
  {[ "url" := VStr "https://www.twitch.tv/streamer";
     "platform_type" := VStr "twitch" ]}.

(** The record behind reference 0, 1 and 2 (and 1 behind any other). *)
Definition three_links : store :=
  fun l => match l with
           | O => youtube_link
           | 2%nat => twitch_link
           | _ => link_without_url
           end.


(** The first rung times out and the second wins. *)
Definition second_rung_wins : sim :=
  scripted [(TimeoutExpired "timed out", None); (Completed 0 "", Some 2048)].


(** The probe fails; the YouTube ladder wins on its second rung; the
    Twitch probe fails and the listing query finds nothing. *)
Definition three_links_world : sim :=
  scripted [ (RunFailed "probe", None);
             (TimeoutExpired "192", None);
             (Completed 0 "", Some 2048);
             (RunFailed "probe", None);
             (Completed 1 "", None) ].

(** ** Results and records *)

(** The keys that [link_data.update] writes. *)
Definition result_keys : list string :=
  [ "sample_extracted"; "sample_file"; "extraction_status"; "sample_duration";
    "actual_duration"; "sample_quality"; "processed_username";
    "sample_filename"; "platform_source"; "original_username" ].

(** The words [_extract_username_from_url] does not take for the name of
    a Twitch channel. *)
Definition reserved_words : list string := ["videos"; "clips"; "collections"].


Section ResultVocabulary.

Context {W : Type} `{Host W}.

(** A result is complete: a success names the output file, which is there
    in the world the call leaves, with the size recorded, and carries the
    duration asked for; a failure carries none of the three. *)
Definition result_complete (output_path : string) (duration : Z)
    (r : result) (w : W) : Prop :=
  if success r then
    file_path r = Some output_path
    /\ actual_duration r = Some duration
    /\ exists size, file_size r = Some size /\ path_size output_path w = Some size
  else
    file_path r = None /\ actual_duration r = None /\ file_size r = None.

End ResultVocabulary.

(** [isinstance(v, str)] *)
Definition is_str (v : pyval) : bool :=
  match v with
  | VStr _ => true
  | _ => false
  end.

(** The status is one that the [except] clause of [_extract_audio_sample]
    writes. *)
Definition extraction_error (r : result) : bool :=
  Py.startswith "extraction_error_for_" (status r).

(** * Properties *)

Ltac by_char c :=
  destruct c as [[] [] [] [] [] [] [] []]; vm_compute; try reflexivity;
  try congruence; try tauto.

(** ** Duration strings and duration resolution *)

Section Duration.

Context {W : Type} `{Host W}.
Variable self : config.

Lemma is_empty_true (s : string) : Py.is_empty s = true <-> s = "".
Proof. destruct s; simpl; split; congruence. Qed.

(** A duration with one colon, with none, or with more than two is
    converted from the list of its fields, which raises: the result is 0. *)
Lemma parse_duration_not_three_fields (s : string) :
  length (Py.split ":" s) <> 3%nat -> _parse_duration_string s = 0.
Proof.
  intros Hlen. unfold _parse_duration_string, parse_duration_try.
  destruct (Nat.eqb_spec (length (Py.split ":" s)) 3) as [E|_]; [contradiction|].
  destruct (length (Py.split ":" s) =? 2)%nat; reflexivity.
Qed.

(** The one shape that is converted: three fields, each an integer
    literal, give hours, minutes and seconds. *)
Lemma parse_duration_three_fields (s a b c : string) (h m sec : Z) :
  Py.split ":" s = [a; b; c] ->
  int a = inr h -> int b = inr m -> int c = inr sec ->
  _parse_duration_string s = h * 3600 + m * 60 + sec.
Proof.
  intros Hsplit Ha Hb Hc. unfold _parse_duration_string, parse_duration_try.
  rewrite Hsplit. simpl. rewrite Ha, Hb, Hc. reflexivity.
Qed.

Lemma optimal_duration_completed url platform w returncode stdout w1 :
  run (duration_probe url) 30 w = (Completed returncode stdout, w1) ->
  _get_optimal_duration self url platform w =
    (if (returncode =? 0) && negb (Py.is_empty (Py.strip stdout))
        && (0 <? _parse_duration_string (Py.strip stdout))
     then clamp self (_parse_duration_string (Py.strip stdout))
     else max_duration self, w1).
Proof.
  intros Hrun. unfold _get_optimal_duration. rewrite Hrun.
  destruct ((returncode =? 0) && negb (Py.is_empty (Py.strip stdout))); simpl;
    [destruct (0 <? _parse_duration_string (Py.strip stdout))|]; reflexivity.
Qed.

(** C4. If the duration probe times out, cannot be run, exits with a
    nonzero code, prints nothing or prints a text that cannot be
    converted, duration resolution returns the configured maximum. *)
Theorem probe_failure_resolves_to_max_duration url platform w :
  probe_unusable (run (duration_probe url) 30 w).1 ->
  (_get_optimal_duration self url platform w).1 = max_duration self.
Proof.
  intros Hbad.
  destruct (run (duration_probe url) 30 w) as [o w1] eqn:Hrun; simpl in Hbad.
  destruct o as [returncode stdout|message|message].
  - rewrite (optimal_duration_completed _ _ _ _ _ _ Hrun); simpl.
    inversion Hbad as [| |rc out Hrc|rc out Hout|rc out e Hparse]; subst.
    + destruct (Z.eqb_spec returncode 0); [contradiction|reflexivity].
    + rewrite Hout; simpl. rewrite andb_false_r. reflexivity.
    + unfold _parse_duration_string. rewrite Hparse; simpl.
      rewrite andb_false_r. reflexivity.
  - unfold _get_optimal_duration. rewrite Hrun. reflexivity.
  - unfold _get_optimal_duration. rewrite Hrun. reflexivity.
Qed.

Lemma clamp_within (d : Z) :
  min_duration self <= d <= max_duration self -> clamp self d = d.
Proof. unfold clamp. lia. Qed.

Lemma clamp_idempotent (d : Z) : clamp self (clamp self d) = clamp self d.
Proof. unfold clamp. lia. Qed.

Lemma clamp_bounds (d : Z) :
  min_duration self <= max_duration self ->
  min_duration self <= clamp self d <= max_duration self.
Proof. unfold clamp. lia. Qed.

(** C6, as amended. When the probe exits with code 0 and its output is
    converted to a positive number of seconds, the resolved duration is
    that number clamped by [max(min_duration, min(_, max_duration))]; the
    call returns it whether or not the clamp changed the value. Clamping
    is idempotent, fixes every value of the admissible range, and lands
    in the range when the range is not empty. *)
Theorem positive_duration_resolves_to_clamp url platform w returncode stdout w1 :
  run (duration_probe url) 30 w = (Completed returncode stdout, w1) ->
  returncode = 0 ->
  Py.strip stdout <> "" ->
  0 < _parse_duration_string (Py.strip stdout) ->
  (_get_optimal_duration self url platform w).1
    = clamp self (_parse_duration_string (Py.strip stdout))
  /\ (forall d, clamp self (clamp self d) = clamp self d)
  /\ (forall d, min_duration self <= d <= max_duration self -> clamp self d = d)
  /\ (min_duration self <= max_duration self ->
      min_duration self <= (_get_optimal_duration self url platform w).1
                        <= max_duration self).
Proof.
  intros Hrun Hrc Hout Hpos.
  assert (Hres : (_get_optimal_duration self url platform w).1
                 = clamp self (_parse_duration_string (Py.strip stdout))).
  { rewrite (optimal_duration_completed _ _ _ _ _ _ Hrun); simpl.
    subst returncode; simpl.
    destruct (Py.is_empty (Py.strip stdout)) eqn:E.
    - apply is_empty_true in E. contradiction.
    - simpl. destruct (Z.ltb_spec 0 (_parse_duration_string (Py.strip stdout))); [reflexivity|lia]. }
  split; [exact Hres|]. split; [apply clamp_idempotent|].
  split; [apply clamp_within|].
  intros Hrange. rewrite Hres. apply clamp_bounds, Hrange.
Qed.

End Duration.

(** C1. The source converts the list of fields instead of its first
    field in the [MM:SS] and bare-seconds branches, so both shapes convert
    to 0 on every host, and resolution falls back to the maximum; only the
    [H:MM:SS] shape is converted. *)
Theorem parse_duration_two_shapes_lost :
  (forall (W : Type) (HW : Host W),
      _parse_duration_string (W:=W) "02:03" = 0
      /\ _parse_duration_string (W:=W) "45" = 0)
  /\ _parse_duration_string (W:=sim) "1:02:03" = 3723
  /\ (_get_optimal_duration default_config (VStr "https://youtu.be/abc") (VStr "youtube")
        (scripted [(Completed 0 "02:03", None)])).1 = 3600
  /\ (_get_optimal_duration default_config (VStr "https://youtu.be/abc") (VStr "youtube")
        (scripted [(Completed 0 "45", None)])).1 = 3600.
Proof.
  split; [|repeat split; vm_compute; reflexivity].
  intros W HW. split; apply parse_duration_not_three_fields; vm_compute; lia.
Qed.

Lemma probe_failure_resolves_to_max_duration_witness :
  probe_unusable
    (run (duration_probe (VStr "https://youtu.be/abc")) 30
         (scripted [(Completed 0 "garbage", None)])).1
  /\ (_get_optimal_duration default_config (VStr "https://youtu.be/abc")
        (VStr "youtube") (scripted [(Completed 0 "garbage", None)])).1 = 3600.
Proof.
  assert (Hbad : probe_unusable
    (run (duration_probe (VStr "https://youtu.be/abc")) 30
         (scripted [(Completed 0 "garbage", None)])).1).
  { apply (probe_unparseable 0 "garbage" Py.TypeError). reflexivity. }
  split; [exact Hbad|].
  exact (probe_failure_resolves_to_max_duration default_config _ (VStr "youtube") _ Hbad).
Defined.

(** C6, the claim as first stated, fails: the probe prints [0:00:00], the
    conversion succeeds with the value 0, and the resolved duration is the
    maximum 3600, not 0 clamped into [30, 3600], which is 30. *)
Lemma zero_duration_resolves_to_max_not_clamp :
  let w := scripted [(Completed 0 "0:00:00", None)] in
  let url := VStr "https://youtu.be/abc" in
  (run (duration_probe url) 30 w).1 = Completed 0 "0:00:00"
  /\ parse_duration_try (W:=sim) (Py.strip "0:00:00") = inr 0
  /\ (_get_optimal_duration default_config url (VStr "youtube") w).1 = 3600
  /\ clamp default_config 0 = 30
  /\ (_get_optimal_duration default_config url (VStr "youtube") w).1
       <> clamp default_config 0.
Proof. vm_compute. repeat split; congruence. Qed.

Lemma positive_duration_resolves_to_clamp_witness :
  let w := scripted [(Completed 0 "1:02:03", None)] in
  let url := VStr "https://youtu.be/abc" in
  (_get_optimal_duration default_config url (VStr "youtube") w).1
    = clamp default_config 3723
  /\ clamp default_config 3723 = 3600.
Proof.
  split; [|reflexivity].
  refine (proj1 (positive_duration_resolves_to_clamp default_config
            (VStr "https://youtu.be/abc") (VStr "youtube")
            (scripted [(Completed 0 "1:02:03", None)])
            0 "1:02:03" _ _ _ _ _)).
  - reflexivity.
  - reflexivity.
  - vm_compute. congruence.
  - vm_compute. reflexivity.
Defined.

(** ** User names *)

Section Usernames.

Context {W : Type} `{Host W}.

(** C7. When a user name of more than two characters can be extracted
    from the URL, username resolution returns it, whatever the identity
    fields of the record hold (and without consulting the hash of the
    URL or the clock). *)
Theorem url_username_takes_precedence
    (link_data : dict) (url : pyval) (u : string) (w : W) :
  _extract_username_from_url url = Some u ->
  (2 < String.length u)%nat ->
  _extract_best_username link_data url w = (u, w).
Proof.
  intros Hurl Hlen. unfold _extract_best_username. rewrite Hurl.
  destruct u as [|c u']; [simpl in Hlen; lia|]. simpl Py.is_empty.
  destruct (Nat.ltb_spec 2 (String.length (String c u'))); [reflexivity|lia].
Qed.

(** Without a usable name in the URL the first usable identity field
    is returned. *)
Lemma field_username_without_url (link_data : dict) (url : pyval) (name : string) (w : W) :
  _extract_username_from_url url = None ->
  username_from_fields link_data ["username"; "screen_name"; "user_name"; "handle"]
    = Some name ->
  _extract_best_username link_data url w = (name, w).
Proof.
  intros Hurl Hfield. unfold _extract_best_username, username_without_url.
  rewrite Hurl, Hfield. reflexivity.
Qed.

End Usernames.

Lemma url_username_takes_precedence_witness :
  let link_data : dict :=
    {[ "url" := VStr "https://youtube.com/@creator1/watch?v=abc";
       "username" := VStr "other_name" ]} in
  let url := VStr "https://youtube.com/@creator1/watch?v=abc" in
  username_from_fields link_data ["username"; "screen_name"; "user_name"; "handle"]
    = Some "other_name"
  /\ _extract_username_from_url url = Some "creator1"
  /\ _extract_best_username link_data url (quiet 0) = ("creator1", quiet 0).
Proof.
  split; [vm_compute; reflexivity|]. split; [vm_compute; reflexivity|].
  apply url_username_takes_precedence; [vm_compute; reflexivity | simpl; lia].
Defined.

(** ** File names *)

Section Sanitize.

Context {W : Type} `{Host W}.

Lemma sanitize_filename_result (filename : string) (w : W) :
  _sanitize_filename filename w =
    match sanitize_result filename with
    | Some r => (r, w)
    | None => let '(t, w1) := time_time w in (user_id t, w1)
    end.
Proof.
  unfold _sanitize_filename, sanitize_result.
  destruct (Py.is_empty filename || _is_empty_value (VStr filename)); [reflexivity|].
  destruct (Py.is_empty (sanitize_steps filename)
            || (String.length (sanitize_steps filename) <? 2)%nat); reflexivity.
Qed.

(** *** Characters *)

Lemma plain_facts (c : ascii) :
  plain c = true ->
  Py.isword c = true /\ Py.isspace c = false /\ Py.lower_char c = c
  /\ Py.is_ascii_word c = true.
Proof. by_char c. Qed.

Lemma lower_char_not_upper (c : ascii) : Py.is_upper_az (Py.lower_char c) = false.
Proof. by_char c. Qed.

Lemma ascii_word_not_upper_plain (c : ascii) :
  Py.is_ascii_word c = true -> Py.is_upper_az c = false -> plain c = true.
Proof. by_char c. Qed.

Lemma is_underscore_eq (c : ascii) : is_underscore c = true <-> c = "_"%char.
Proof. by_char c; split; congruence. Qed.

(** *** Strings whose characters all pass a test *)

Lemma all_chars_weaken (p q : ascii -> bool) (s : string) :
  (forall c, p c = true -> q c = true) ->
  all_chars p s = true -> all_chars q s = true.
Proof.
  intros Hpq. induction s as [|c r IH]; simpl; [reflexivity|].
  intros [Hc Hr]%andb_true_iff. rewrite (Hpq _ Hc), (IH Hr). reflexivity.
Qed.

Lemma all_chars_keep (p f : ascii -> bool) (s : string) :
  all_chars p s = true -> all_chars (fun c => p c && f c) (Py.keep f s) = true.
Proof.
  induction s as [|c r IH]; simpl; [reflexivity|].
  intros [Hc Hr]%andb_true_iff.
  destruct (f c) eqn:Hf; simpl; [rewrite Hc, Hf; simpl|]; apply IH, Hr.
Qed.

Lemma all_chars_lower (s : string) :
  all_chars (fun c => negb (Py.is_upper_az c)) (Py.lower s) = true.
Proof.
  induction s as [|c r IH]; simpl; [reflexivity|].
  rewrite lower_char_not_upper, IH. reflexivity.
Qed.

Lemma all_chars_sub_runs (p f : ascii -> bool) (rep : ascii) (b : bool) (s : string) :
  p rep = true -> all_chars p s = true ->
  all_chars p (Py.sub_runs f rep b s) = true.
Proof.
  intros Hrep. revert b. induction s as [|c r IH]; intros b; simpl; [reflexivity|].
  intros [Hc Hr]%andb_true_iff.
  destruct (f c); [destruct b|]; simpl; rewrite ?Hrep, ?Hc; simpl; apply IH, Hr.
Qed.

Lemma all_chars_lstrip (p f : ascii -> bool) (s : string) :
  all_chars p s = true -> all_chars p (Py.lstrip_by f s) = true.
Proof.
  induction s as [|c r IH]; simpl; [reflexivity|].
  intros Hall. destruct (f c); [|exact Hall].
  apply andb_true_iff in Hall as [_ Hr]. apply IH, Hr.
Qed.

Lemma all_chars_rstrip (p f : ascii -> bool) (s : string) :
  all_chars p s = true -> all_chars p (Py.rstrip_by f s) = true.
Proof.
  induction s as [|c r IH]; simpl; [reflexivity|].
  intros [Hc Hr]%andb_true_iff.
  destruct (Py.is_empty (Py.rstrip_by f r) && f c); simpl; [reflexivity|].
  rewrite Hc, (IH Hr). reflexivity.
Qed.

Lemma all_chars_take (p : ascii -> bool) (n : nat) (s : string) :
  all_chars p s = true -> all_chars p (Py.take n s) = true.
Proof.
  revert s. induction n as [|n IH]; intros [|c r]; simpl; try reflexivity.
  intros [Hc Hr]%andb_true_iff. rewrite Hc, (IH _ Hr). reflexivity.
Qed.

Lemma length_take (n : nat) (s : string) : (String.length (Py.take n s) <= n)%nat.
Proof.
  revert s. induction n as [|n IH]; intros [|c r]; simpl; try lia.
  specialize (IH r). lia.
Qed.

(** *** Steps that leave a string as it is *)

Lemma keep_all (p f : ascii -> bool) (s : string) :
  (forall c, p c = true -> f c = true) ->
  all_chars p s = true -> Py.keep f s = s.
Proof.
  intros Hpf. induction s as [|c r IH]; simpl; [reflexivity|].
  intros [Hc Hr]%andb_true_iff. rewrite (Hpf _ Hc), (IH Hr). reflexivity.
Qed.

Lemma lower_plain (s : string) : all_chars plain s = true -> Py.lower s = s.
Proof.
  induction s as [|c r IH]; simpl; [reflexivity|].
  intros [Hc Hr]%andb_true_iff.
  destruct (plain_facts c Hc) as (_ & _ & -> & _). rewrite (IH Hr). reflexivity.
Qed.

Lemma sub_runs_none (p f : ascii -> bool) (rep : ascii) (b : bool) (s : string) :
  (forall c, p c = true -> f c = false) ->
  all_chars p s = true -> Py.sub_runs f rep b s = s.
Proof.
  intros Hpf. revert b. induction s as [|c r IH]; intros b; simpl; [reflexivity|].
  intros [Hc Hr]%andb_true_iff. rewrite (Hpf _ Hc), (IH _ Hr). reflexivity.
Qed.

Lemma lstrip_none (p f : ascii -> bool) (s : string) :
  (forall c, p c = true -> f c = false) ->
  all_chars p s = true -> Py.lstrip_by f s = s.
Proof.
  intros Hpf. destruct s as [|c r]; simpl; [reflexivity|].
  intros [Hc _]%andb_true_iff. rewrite (Hpf _ Hc). reflexivity.
Qed.

Lemma rstrip_none (p f : ascii -> bool) (s : string) :
  (forall c, p c = true -> f c = false) ->
  all_chars p s = true -> Py.rstrip_by f s = s.
Proof.
  intros Hpf. induction s as [|c r IH]; simpl; [reflexivity|].
  intros [Hc Hr]%andb_true_iff.
  rewrite (Hpf _ Hc), (IH Hr), andb_false_r. reflexivity.
Qed.

Lemma lstrip_no_leading_underscore (s : string) :
  Py.startswith "_" s = false -> Py.lstrip_by is_underscore s = s.
Proof.
  destruct s as [|c r]; [reflexivity|]. intros Hs. cbn [Py.lstrip_by].
  destruct (is_underscore c) eqn:E; [|reflexivity].
  apply is_underscore_eq in E. subst c.
  unfold Py.startswith in Hs. destruct r; simpl in Hs; discriminate.
Qed.

Lemma rstrip_no_trailing_underscore (s : string) :
  Py.endswith "_" s = false -> Py.rstrip_by is_underscore s = s.
Proof.
  induction s as [|c r IH]; [reflexivity|].
  cbn [Py.endswith Py.rstrip_by].
  intros [Heq Hr]%orb_false_iff. rewrite (IH Hr).
  destruct r as [|d r']; simpl; [|reflexivity].
  destruct (is_underscore c) eqn:E; [|reflexivity].
  apply is_underscore_eq in E. subst c. vm_compute in Heq. discriminate.
Qed.

Lemma sub_runs_no_double_underscore (prev : ascii) (s : string) :
  Py.contains "__" (String prev s) = false ->
  Py.sub_runs is_underscore "_" (is_underscore prev) s = s.
Proof.
  revert prev. induction s as [|c r IH]; intros prev; [reflexivity|].
  intros Hno. cbn [Py.contains] in Hno.
  apply orb_false_iff in Hno as [Hhead Hrest].
  cbn [Py.sub_runs]. destruct (is_underscore c) eqn:Ec.
  - pose proof (proj1 (is_underscore_eq c) Ec) as ->.
    destruct (is_underscore prev) eqn:Ep.
    + apply is_underscore_eq in Ep. subst prev.
      unfold Py.startswith in Hhead. destruct r; simpl in Hhead; discriminate.
    + pose proof (IH "_"%char Hrest) as IH'. rewrite Ec in IH'.
      rewrite IH'. reflexivity.
  - pose proof (IH c Hrest) as IH'. rewrite Ec in IH'. rewrite IH'. reflexivity.
Qed.

Lemma collapse_no_double_underscore (s : string) :
  Py.contains "__" s = false ->
  Py.sub_runs is_underscore "_" false s = s.
Proof.
  intros Hno. apply (sub_runs_no_double_underscore "a"%char).
  cbn [Py.contains]. rewrite Hno. reflexivity.
Qed.

(** *** What the sanitiser returns *)

Lemma sanitize_steps_plain (s : string) :
  all_chars plain (sanitize_steps s) = true.
Proof.
  unfold sanitize_steps.
  set (f4 := Py.strip_by is_underscore _).
  assert (H4 : all_chars (fun c => negb (Py.is_upper_az c)) f4 = true).
  { unfold f4, Py.strip_by.
    apply all_chars_rstrip, all_chars_lstrip.
    apply all_chars_sub_runs; [reflexivity|].
    apply all_chars_sub_runs; [reflexivity|].
    apply all_chars_lower. }
  assert (H5 : all_chars plain (Py.keep Py.is_ascii_word f4) = true).
  { eapply all_chars_weaken; [|apply (all_chars_keep _ Py.is_ascii_word _ H4)].
    intros c [Hu Hw]%andb_true_iff. apply ascii_word_not_upper_plain; [exact Hw|].
    destruct (Py.is_upper_az c); [discriminate|reflexivity]. }
  destruct (20 <? String.length (Py.keep Py.is_ascii_word f4))%nat;
    [apply all_chars_take|]; exact H5.
Qed.

Lemma sanitize_steps_length (s : string) :
  (String.length (sanitize_steps s) <= 20)%nat.
Proof.
  unfold sanitize_steps.
  set (f5 := Py.keep Py.is_ascii_word _).
  destruct (Nat.ltb_spec 20 (String.length f5)); [apply length_take|assumption].
Qed.

(** A well-formed name of plain characters, 2 to 20 of them, is a fixed
    point of the sanitiser. *)
Lemma sanitize_result_fixed (r : string) :
  all_chars plain r = true ->
  (2 <= String.length r <= 20)%nat ->
  well_formed_name r ->
  sanitize_result r = Some r.
Proof.
  intros Hplain Hlen (Hhead & Htail & Hdouble & Hword).
  assert (Hnospace : forall c, plain c = true -> Py.isspace c = false)
    by (intros c Hc; apply (plain_facts c Hc)).
  assert (Hsteps : sanitize_steps r = r).
  { unfold sanitize_steps.
    rewrite (keep_all plain _ r); [|intros c Hc|exact Hplain].
    2:{ destruct (plain_facts c Hc) as (-> & _). reflexivity. }
    rewrite (lower_plain r Hplain).
    rewrite (sub_runs_none plain Py.isspace _ _ r Hnospace Hplain).
    rewrite (collapse_no_double_underscore r Hdouble).
    unfold Py.strip_by.
    rewrite (lstrip_no_leading_underscore r Hhead).
    rewrite (rstrip_no_trailing_underscore r Htail).
    rewrite (keep_all plain _ r); [|intros c Hc|exact Hplain].
    2:{ apply (plain_facts c Hc). }
    destruct (Nat.ltb_spec 20 (String.length r)); [lia|reflexivity]. }
  unfold sanitize_result. rewrite Hsteps.
  assert (Hempty : _is_empty_value (VStr r) = false).
  { unfold _is_empty_value, py_str. rewrite (lower_plain r Hplain).
    unfold Py.strip, Py.strip_by.
    rewrite (lstrip_none plain _ r Hnospace Hplain).
    rewrite (rstrip_none plain _ r Hnospace Hplain).
    unfold string_in in *. simpl in *.
    destruct (String.eqb r "nan"); [discriminate|].
    destruct (String.eqb r "none"); [discriminate|].
    destruct (String.eqb r "null"); [discriminate|].
    destruct r; [simpl in Hlen; lia|reflexivity]. }
  rewrite Hempty.
  assert (Hne : Py.is_empty r = false)
    by (destruct r; [simpl in Hlen; lia|reflexivity]).
  rewrite Hne. simpl orb.
  destruct (Nat.ltb_spec (String.length r) 2); [lia|reflexivity].
Qed.

(** The time-based names are fixed points as well: checked on each of
    the 10000 of them. *)
Lemma sanitize_result_user_id_all :
  forallb (fun k => match sanitize_result (user_id (Z.of_nat k)) with
                    | Some r => String.eqb r (user_id (Z.of_nat k))
                    | None => false
                    end) (seq 0 (Z.to_nat 10000)) = true.
Proof. vm_compute. reflexivity. Qed.

Lemma user_id_mod (t : Z) : user_id t = user_id (t mod 10000).
Proof. unfold user_id. rewrite Z.mod_mod by lia. reflexivity. Qed.

Lemma sanitize_result_user_id (t : Z) :
  sanitize_result (user_id t) = Some (user_id t).
Proof.
  rewrite (user_id_mod t).
  pose proof (Z.mod_pos_bound t 10000 ltac:(lia)) as Hk.
  set (k := t mod 10000) in *.
  pose proof sanitize_result_user_id_all as Hall.
  rewrite forallb_forall in Hall.
  specialize (Hall (Z.to_nat k)).
  rewrite Z2Nat.id in Hall by lia.
  assert (Hin : In (Z.to_nat k) (seq 0 (Z.to_nat 10000))) by (apply in_seq; lia).
  specialize (Hall Hin).
  destruct (sanitize_result (user_id k)) as [r|]; [|discriminate].
  apply String.eqb_eq in Hall. congruence.
Qed.

(** C8, as amended. Sanitising a sanitised name returns it unchanged
    whenever that name has no underscore in front, at the end or
    doubled, and is not [nan], [none] or [null]; the time-based names
    always are of that form. *)
Theorem sanitize_idempotent_on_well_formed (s : string) (w w' : W) :
  well_formed_name (_sanitize_filename s w).1 ->
  _sanitize_filename (_sanitize_filename s w).1 w'
    = ((_sanitize_filename s w).1, w').
Proof.
  rewrite (sanitize_filename_result s w).
  destruct (sanitize_result s) as [r|] eqn:Hres.
  - simpl. intros Hwf. rewrite sanitize_filename_result.
    unfold sanitize_result in Hres.
    destruct (Py.is_empty s || _is_empty_value (VStr s)); [discriminate|].
    destruct (Py.is_empty (sanitize_steps s)
              || (String.length (sanitize_steps s) <? 2)%nat) eqn:Hshort;
      [discriminate|].
    injection Hres as <-.
    apply orb_false_iff in Hshort as [_ Hshort].
    apply Nat.ltb_ge in Hshort.
    rewrite sanitize_result_fixed; [reflexivity| | |exact Hwf].
    + apply sanitize_steps_plain.
    + split; [exact Hshort|apply sanitize_steps_length].
  - destruct (time_time w) as [t w1]. simpl. intros _.
    rewrite sanitize_filename_result, sanitize_result_user_id. reflexivity.
Qed.

End Sanitize.

(** C8, the claim as first stated, fails: the hyphen of [a_-_b] is removed
    after the underscores were collapsed, which leaves [a__b], and
    sanitising [a__b] gives [a_b]. *)
Lemma sanitize_not_idempotent :
  (_sanitize_filename "a_-_b" (quiet 0)).1 = "a__b"
  /\ (_sanitize_filename (_sanitize_filename "a_-_b" (quiet 0)).1 (quiet 0)).1 = "a_b"
  /\ (_sanitize_filename (_sanitize_filename "a_-_b" (quiet 0)).1 (quiet 0)).1
       <> (_sanitize_filename "a_-_b" (quiet 0)).1.
Proof. vm_compute. repeat split; congruence. Qed.

(** Each condition of [well_formed_name] is needed: a sanitised name
    with a trailing underscore, with an underscore in front, and the
    word [nan], none of which is returned unchanged. *)
Example sanitize_moves_ill_formed_names :
  ((_sanitize_filename "ab_-" (quiet 0)).1 = "ab_"
   /\ (_sanitize_filename "ab_" (quiet 0)).1 = "ab")
  /\ ((_sanitize_filename "-_ab" (quiet 0)).1 = "_ab"
      /\ (_sanitize_filename "_ab" (quiet 0)).1 = "ab")
  /\ ((_sanitize_filename "n-an" (quiet 1234)).1 = "nan"
      /\ (_sanitize_filename "nan" (quiet 1234)).1 = "user_1234").
Proof. repeat apply conj; vm_compute; reflexivity. Qed.

Lemma sanitize_idempotent_on_well_formed_witness :
  well_formed_name (_sanitize_filename "Creator One!" (quiet 0)).1
  /\ _sanitize_filename (_sanitize_filename "Creator One!" (quiet 0)).1 (quiet 7)
       = ("creator_one", quiet 7).
Proof.
  assert (Hwf : well_formed_name (_sanitize_filename "Creator One!" (quiet 0)).1).
  { vm_compute. repeat split; reflexivity. }
  split; [exact Hwf|].
  exact (sanitize_idempotent_on_well_formed "Creator One!" (quiet 0) (quiet 7) Hwf).
Defined.

(** ** The quality ladder *)

Section Ladder.

Context {W : Type} `{Host W}.
Variable self : config.

Lemma attempt_fails cmd timeout output_path w w1 :
  rung_fails cmd timeout output_path w w1 ->
  attempt cmd timeout output_path w = (None, w1).
Proof.
  intros Hfail. unfold attempt.
  destruct Hfail as [m w1 Hrun|m w1 Hrun|rc out w1 Hrun Hrc|out w1 Hrun Hfile];
    rewrite Hrun; try reflexivity.
  - destruct (Z.eqb_spec rc 0); [contradiction|reflexivity].
  - simpl. rewrite Hfile. reflexivity.
Qed.

Lemma attempt_wins cmd timeout output_path w size w1 :
  rung_wins cmd timeout output_path w size w1 ->
  attempt cmd timeout output_path w = (Some size, w1).
Proof.
  intros (out & Hrun & Hfile). unfold attempt. rewrite Hrun. simpl.
  rewrite Hfile. reflexivity.
Qed.

(** Every rung either fails or wins. *)
Lemma attempt_cases cmd timeout output_path w :
  (exists w1, rung_fails cmd timeout output_path w w1)
  \/ (exists size w1, rung_wins cmd timeout output_path w size w1).
Proof.
  destruct (run cmd timeout w) as [[rc out|m|m] w1] eqn:Hrun.
  - destruct (Z.eq_dec rc 0) as [->|Hrc].
    + destruct (path_size output_path w1) as [size|] eqn:Hfile.
      * right. exists size, w1, out. auto.
      * left. exists w1. eapply rung_file_missing; eauto.
    + left. exists w1. eapply rung_exit_code; eauto.
  - left. exists w1. eapply rung_timed_out; eauto.
  - left. exists w1. eapply rung_not_run; eauto.
Qed.

Lemma ladder_first_success command succeeded exhausted output_path duration
      pre q t post w w1 size w2 :
  rungs_fail command output_path pre w w1 ->
  rung_wins (command q) t output_path w1 size w2 ->
  ladder command succeeded exhausted output_path duration (pre ++ (q, t) :: post) w
    = (Result true (Some output_path) (succeeded q) (Some duration) (Some size), w2).
Proof.
  intros Hpre Hwin. induction Hpre as [w|q0 t0 rest w w' w1 Hfail _ IH]; simpl.
  - rewrite (attempt_wins _ _ _ _ _ _ Hwin). reflexivity.
  - rewrite (attempt_fails _ _ _ _ _ Hfail). apply IH, Hwin.
Qed.

Lemma ladder_exhausted command succeeded exhausted output_path duration rungs w w1 :
  rungs_fail command output_path rungs w w1 ->
  ladder command succeeded exhausted output_path duration rungs w
    = (failure exhausted, w1).
Proof.
  intros Hall. induction Hall as [w|q0 t0 rest w w' w1 Hfail _ IH]; simpl.
  - reflexivity.
  - rewrite (attempt_fails _ _ _ _ _ Hfail). exact IH.
Qed.

(** The two cases cover every run of the ladder. *)
Lemma ladder_cases command output_path rungs w :
  (exists w1, rungs_fail command output_path rungs w w1)
  \/ (exists pre q t post w1 size w2,
        rungs = (pre ++ (q, t) :: post)
        /\ rungs_fail command output_path pre w w1
        /\ rung_wins (command q) t output_path w1 size w2).
Proof.
  revert w. induction rungs as [|[q t] rest IH]; intros w.
  - left. exists w. constructor.
  - destruct (attempt_cases (command q) t output_path w)
      as [[w1 Hfail]|(size & w1 & Hwin)].
    + destruct (IH w1) as [[w2 Hall]|(pre & q' & t' & post & w2 & size & w3 & -> & Hpre & Hwin)].
      * left. exists w2. econstructor; eauto.
      * right. exists ((q, t) :: pre), q', t', post, w2, size, w3.
        split; [reflexivity|]. split; [econstructor; eauto|exact Hwin].
    + right. exists [], q, t, rest, w, size, w1.
      split; [reflexivity|]. split; [constructor|exact Hwin].
Qed.




End Ladder.



(** ** Twitch channel pages *)

Section Vod.

Context {W : Type} `{Host W}.
Variable self : config.

Lemma listing_lines_blank (stdout : string) :
  Py.is_empty (Py.strip stdout) = true -> listing_lines stdout = [].
Proof.
  intros Hblank. unfold listing_lines.
  destruct (Py.strip stdout); [reflexivity|discriminate].
Qed.

Lemma try_get_recent_twitch_vod_lookup extract videos_url output_path nickname duration w :
  vod_lookup extract videos_url output_path nickname duration w
    (_try_get_recent_twitch_vod extract videos_url output_path nickname duration w).1
    (_try_get_recent_twitch_vod extract videos_url output_path nickname duration w).2.
Proof.
  unfold _try_get_recent_twitch_vod.
  destruct (run (vod_listing videos_url) 120 w) as [[rc stdout|m|m] w1] eqn:Hrun.
  - destruct (Z.eqb_spec rc 0) as [->|Hrc]; simpl.
    2:{ eapply lookup_no_entry; eauto. }
    destruct (Py.is_empty (Py.strip stdout)) eqn:Hblank; simpl.
    { eapply lookup_no_entry; eauto using listing_lines_blank. }
    destruct (listing_lines stdout) as [|line rest] eqn:Hlines.
    { eapply lookup_no_entry; eauto. }
    destruct (json_loads line) as [message|vod_info] eqn:Hjson.
    { eapply lookup_unparseable; eauto. }
    destruct (vod_info !! "title") as [[title|]|] eqn:Htitle.
    2:{ eapply lookup_null_title; eauto. }
    all: destruct (truthy (entry_url vod_info)) eqn:Hurl;
      [ destruct (extract (entry_url vod_info) output_path nickname duration w1)
          as [[e|r] w2] eqn:Hext;
        [ eapply lookup_extraction_raised; eauto; rewrite Htitle; congruence
        | eapply lookup_found; eauto; rewrite Htitle; congruence ]
      | eapply lookup_no_url; eauto; rewrite Htitle; congruence ].
  - simpl. eapply lookup_timed_out; eauto.
  - simpl. eapply lookup_not_run; eauto.
Qed.


End Vod.



(** ** The batch *)

Section Batch.

Context {W : Type} `{Host W}.
Variable self : config.

Lemma dict_update_recorded d r dur su fn sp un :
  recorded self (dict_update d (result_fields self r dur su fn sp un)) r.
Proof.
  unfold recorded, dict_update, result_fields. simpl.
  repeat split;
    repeat (first [rewrite lookup_insert_eq; reflexivity
                  |rewrite lookup_insert_ne by discriminate]).
Qed.

Lemma dict_update_inputs d r dur su fn sp un :
  dict_update d (result_fields self r dur su fn sp un) !! "url" = d !! "url"
  /\ dict_update d (result_fields self r dur su fn sp un) !! "platform_type"
     = d !! "platform_type".
Proof.
  unfold dict_update, result_fields. simpl.
  split; repeat (rewrite lookup_insert_ne by discriminate); reflexivity.
Qed.

Lemma safe_platform_text d :
  platform_text d = true ->
  exists sp, safe_platform_of (dict_get d "platform_type" (VStr "unknown")) = inr sp.
Proof.
  unfold platform_text, dict_get, safe_platform_of.
  destruct (d !! "platform_type") as [[|b|n|p]|]; try discriminate; intros _.
  - eexists; reflexivity.
  - simpl. destruct (Py.is_empty p); eexists; reflexivity.
  - eexists; reflexivity.
Qed.

(** One turn of the loop, for a record with a textual platform: the
    link is skipped and nothing changes in the store, or an attempt is
    made and its outcome is written on the record of the link. *)
Lemma process_link_cases link w h :
  platform_text (h link) = true ->
  (truthy (link_url (h link)) = false
   /\ exists w1, process_link self link w h = (inr Skipped, w1, h))
  \/ (truthy (link_url (h link)) = true
      /\ exists r w1 dur su fn sp un,
           process_link self link w h
           = (inr (Attempted r), w1,
              <[link := dict_update (h link) (result_fields self r dur su fn sp un)]> h)).
Proof.
  intros Hplat. unfold process_link, link_url.
  destruct (_extract_best_username (h link) (dict_get (h link) "url" (VStr "")) w)
    as [username w0].
  destruct (truthy (dict_get (h link) "url" (VStr ""))) eqn:Hurl; simpl.
  - right. split; [reflexivity|].
    destruct (_get_optimal_duration self _ _ w0) as [dur w1].
    destruct (_sanitize_filename username w1) as [su w2].
    destruct (safe_platform_text _ Hplat) as [sp ->].
    destruct (time_time w2) as [ts w3].
    destruct (_extract_audio_sample self _ _ _ su dur w3) as [r w4].
    do 7 eexists. reflexivity.
  - left. split; [reflexivity|]. eexists. reflexivity.
Qed.

Lemma filter_map_sublist {A B} (f : A -> B) (p : A -> bool) (l : list A) :
  sublist (List.map f (List.filter p l)) (List.map f l).
Proof.
  induction l as [|a l IH]; simpl; [constructor|].
  destruct (p a); simpl; [apply sublist_skip|apply sublist_cons]; exact IH.
Qed.

Lemma winners_cons_skipped link rest w h w1 h1 :
  process_link self link w h = (inr Skipped, w1, h1) ->
  winners self (link :: rest) w h = winners self rest w1 h1.
Proof. intros Hstep. unfold winners. simpl. rewrite Hstep. reflexivity. Qed.

Lemma winners_cons_attempted link rest w h r w1 h1 :
  process_link self link w h = (inr (Attempted r), w1, h1) ->
  winners self (link :: rest) w h
  = (if success r then [link] else []) ++ winners self rest w1 h1.
Proof.
  intros Hstep. unfold winners. simpl. rewrite Hstep. simpl.
  destruct (success r); reflexivity.
Qed.

(** The loop, from any point on: it returns, with the winners appended
    to what it started from; records of other links are untouched, the
    URL and the platform of every record stay as they were; every link
    with a true URL carries the outcome of an attempt, a skipped one
    keeps its record. *)
Lemma links_loop_spec (links : list ref) :
  forall (acc : list ref) (w : W) (h : store),
    Forall (fun l => platform_text (h l) = true) links ->
    exists w' h',
      links_loop self links acc w h
        = (Returned (acc ++ winners self links w h), w', h')
      /\ List.map fst (outcomes self links w h) = links
      /\ (forall l, l ∉ links -> h' l = h l)
      /\ (forall l, h' l !! "url" = h l !! "url"
                    /\ h' l !! "platform_type" = h l !! "platform_type")
      /\ (forall l, l ∈ links -> truthy (link_url (h l)) = false -> h' l = h l)
      /\ (forall l, l ∈ links -> truthy (link_url (h l)) = true ->
            exists r,
              recorded self (h' l) r
              /\ (success r = true -> l ∈ winners self links w h)
              /\ (NoDup links -> l ∈ winners self links w h -> success r = true)).
Proof.
  induction links as [|link rest IH]; intros acc w h Hplat.
  - exists w, h. simpl. unfold winners. simpl. rewrite app_nil_r.
    repeat split; try reflexivity; intros l Hl; inversion Hl.
  - apply Forall_cons in Hplat as [Hlink Hrest].
    destruct (process_link_cases link w h Hlink)
      as [[Hurl [w1 Hstep]]|[Hurl (r & w1 & dur & su & fn & sp & un & Hstep)]].
    + (* skipped *)
      destruct (IH acc w1 h Hrest) as (w' & h' & Hloop & Hmap & Hframe & Hkeep & Hskip & Hrec).
      exists w', h'. cbn [links_loop outcomes]. rewrite Hstep.
      rewrite (winners_cons_skipped _ _ _ _ _ _ Hstep).
      split; [exact Hloop|]. split; [simpl; f_equal; exact Hmap|].
      split; [intros l Hl; apply Hframe; intros Hm; apply Hl; right; exact Hm|].
      split; [exact Hkeep|].
      assert (Hlink' : h' link = h link).
      { destruct (decide (link ∈ rest)) as [Hmem|Hmem];
          [apply Hskip; assumption|apply Hframe; assumption]. }
      split.
      * intros l Hl Hl0. apply elem_of_cons in Hl as [->|Hl]; [exact Hlink'|].
        apply Hskip; assumption.
      * intros l Hl Hl1. apply elem_of_cons in Hl as [->|Hl]; [congruence|].
        destruct (Hrec l Hl Hl1) as (r & Hr & Hwin & Hnodup).
        exists r. split; [exact Hr|]. split; [exact Hwin|].
        intros Hnd. apply NoDup_cons in Hnd as [_ Hnd]. apply Hnodup, Hnd.
    + (* attempted *)
      set (d1 := dict_update (h link) (result_fields self r dur su fn sp un)) in *.
      set (h1 := <[link := d1]> h) in *.
      destruct (dict_update_inputs (h link) r dur su fn sp un) as [Hu1 Hp1].
      fold d1 in Hu1, Hp1.
      assert (Hinputs : forall l, h1 l !! "url" = h l !! "url"
                                /\ h1 l !! "platform_type" = h l !! "platform_type").
      { intros l. unfold h1. destruct (decide (link = l)) as [<-|Hne].
        - rewrite fn_lookup_insert. split; assumption.
        - rewrite fn_lookup_insert_ne by exact Hne. split; reflexivity. }
      assert (Hrest1 : Forall (fun l => platform_text (h1 l) = true) rest).
      { eapply Forall_impl; [exact Hrest|]. intros l Hl. simpl in *.
        unfold platform_text in *. rewrite (proj2 (Hinputs l)). exact Hl. }
      assert (Hurl1 : forall l, link_url (h1 l) = link_url (h l)).
      { intros l. unfold link_url, dict_get. rewrite (proj1 (Hinputs l)). reflexivity. }
      destruct (IH (acc ++ (if success r then [link] else [])) w1 h1 Hrest1)
        as (w' & h' & Hloop & Hmap & Hframe & Hkeep & Hskip & Hrec).
      exists w', h'. cbn [links_loop outcomes]. rewrite Hstep.
      rewrite (winners_cons_attempted _ _ _ _ _ _ _ Hstep).
      split.
      { rewrite app_assoc. destruct (success r).
        - exact Hloop.
        - rewrite app_nil_r in Hloop. rewrite app_nil_r. exact Hloop. }
      split; [simpl; f_equal; exact Hmap|].
      split.
      { intros l Hl. apply not_elem_of_cons in Hl as [Hne Hl].
        rewrite (Hframe l Hl). unfold h1. apply fn_lookup_insert_ne. congruence. }
      split.
      { intros l. destruct (Hkeep l) as [-> ->]. apply Hinputs. }
      split.
      { intros l Hl Hl0. apply elem_of_cons in Hl as [->|Hl]; [congruence|].
        rewrite (Hskip l Hl) by (rewrite Hurl1; exact Hl0).
        unfold h1. apply fn_lookup_insert_ne. intros <-. congruence. }
      intros l Hl Hl1.
      destruct (decide (l ∈ rest)) as [Hmem|Hmem].
      * destruct (Hrec l Hmem) as (r' & Hr' & Hwin & Hnodup);
          [rewrite Hurl1; exact Hl1|].
        exists r'. split; [exact Hr'|].
        split; [intros Hs; apply elem_of_app; right; apply Hwin, Hs|].
        intros Hnd Hwon. apply NoDup_cons in Hnd as [Hnotin Hnd].
        apply Hnodup; [exact Hnd|].
        apply elem_of_app in Hwon as [Hwon|Hwon]; [|exact Hwon].
        destruct (success r); [|inversion Hwon].
        apply list_elem_of_singleton in Hwon. subst l. contradiction.
      * apply elem_of_cons in Hl as [->|Hl]; [|contradiction].
        exists r. split.
        { rewrite (Hframe link Hmem). unfold h1. rewrite fn_lookup_insert.
          apply dict_update_recorded. }
        split.
        { intros Hs. rewrite Hs. apply elem_of_app. left. apply list_elem_of_singleton. reflexivity. }
        intros _ Hwon. apply elem_of_app in Hwon as [Hwon|Hwon].
        { destruct (success r); [reflexivity|inversion Hwon]. }
        exfalso. apply Hmem.
        assert (Hsub : winners self rest w1 h1 ⊆ rest).
        { unfold winners. rewrite <- Hmap at 2.
          apply sublist_subseteq, filter_map_sublist. }
        apply Hsub, Hwon.
Qed.

Lemma extract_voice_samples_loop links w h :
  extract_voice_samples self links w h = links_loop self links [] w h.
Proof. destruct links; reflexivity. Qed.

(** What one turn of the loop does to the store, whatever the record
    holds: an attempt writes its outcome on the record of the link, a
    skipped link and a link that raises leave the store as it is. *)
Lemma process_link_store link w h :
  match process_link self link w h with
  | (inr (Attempted r), _, h1) =>
      exists dur su fn sp un,
        h1 = <[link := dict_update (h link) (result_fields self r dur su fn sp un)]> h
  | (_, _, h1) => h1 = h
  end.
Proof.
  unfold process_link.
  destruct (_extract_best_username (h link) (dict_get (h link) "url" (VStr "")) w)
    as [username w0].
  destruct (truthy (dict_get (h link) "url" (VStr ""))); simpl; [|reflexivity].
  destruct (_get_optimal_duration self _ _ w0) as [dur w1].
  destruct (_sanitize_filename username w1) as [su w2].
  destruct (safe_platform_of _) as [e|sp]; [reflexivity|].
  destruct (time_time w2) as [ts w3].
  destruct (_extract_audio_sample self _ _ _ su dur w3) as [r w4].
  do 5 eexists. reflexivity.
Qed.

Lemma links_loop_returned (links : list ref) :
  forall acc w h samples w' h',
    links_loop self links acc w h = (Returned samples, w', h') ->
    samples = acc ++ winners self links w h.
Proof.
  induction links as [|link rest IH]; intros acc w h samples w' h' Hloop.
  - simpl in Hloop. injection Hloop as <- _ _. unfold winners. simpl.
    rewrite app_nil_r. reflexivity.
  - cbn [links_loop] in Hloop.
    destruct (process_link self link w h) as [[[e|[|r]] w1] h1] eqn:Hstep.
    + discriminate.
    + rewrite (winners_cons_skipped _ _ _ _ _ _ Hstep). eapply IH, Hloop.
    + rewrite (winners_cons_attempted _ _ _ _ _ _ _ Hstep), app_assoc.
      destruct (success r); [|rewrite app_nil_r]; eapply IH, Hloop.
Qed.

Lemma outcomes_sublist (links : list ref) :
  forall w h, sublist (List.map fst (outcomes self links w h)) links.
Proof.
  induction links as [|link rest IH]; intros w h; simpl; [constructor|].
  destruct (process_link self link w h) as [[[e|o] w1] h1]; simpl.
  - apply sublist_nil_l.
  - apply sublist_skip, IH.
Qed.

Lemma winners_sublist links w h : sublist (winners self links w h) links.
Proof.
  transitivity (List.map fst (outcomes self links w h)).
  - apply filter_map_sublist.
  - apply outcomes_sublist.
Qed.


(** C10. Whenever the call returns, it returns the links whose
    extraction succeeded, in the order of the input and nothing else: a
    link that was skipped or whose extraction failed is not returned,
    though a failure is written on its record. It does return when the
    platform of every record is textual. For the empty list it returns
    the empty list and leaves the world and the store as they are. *)
Theorem extract_returns_successful_subsequence (links : list ref) (w : W) (h : store) :
  (forall samples w' h',
      extract_voice_samples self links w h = (Returned samples, w', h') ->
      samples = winners self links w h /\ sublist samples links)
  /\ (Forall (fun l => platform_text (h l) = true) links ->
      exists w' h',
        extract_voice_samples self links w h
          = (Returned (winners self links w h), w', h')
        /\ List.map fst (outcomes self links w h) = links)
  /\ extract_voice_samples self [] w h = (Returned [], w, h).
Proof.
  split; [|split; [|reflexivity]].
  - intros samples w' h' Hret. rewrite extract_voice_samples_loop in Hret.
    apply links_loop_returned in Hret. simpl in Hret. subst samples.
    split; [reflexivity|apply winners_sublist].
  - intros Hplat.
    destruct (links_loop_spec links [] w h Hplat) as (w' & h' & Hloop & Hmap & _).
    exists w', h'. rewrite extract_voice_samples_loop.
    split; [exact Hloop|exact Hmap].
Qed.


(** C3, as amended. When the platform of every record is textual, the
    call returns, and after it every link with a true URL carries the
    outcome of an attempt on its record, [sample_extracted] and
    [extraction_status]: a success, and then the link is among the
    returned ones, or a failure with its status. With no link given
    twice the returned links are exactly those marked as extracted. A
    link with an empty URL keeps its record as it was. *)
Theorem every_link_with_url_gets_an_outcome (links : list ref) (w : W) (h : store) :
  Forall (fun l => platform_text (h l) = true) links ->
  exists samples w' h',
    extract_voice_samples self links w h = (Returned samples, w', h')
    /\ (forall l, l ∈ links -> truthy (link_url (h l)) = true ->
          exists extracted st,
            h' l !! "sample_extracted" = Some (VBool extracted)
            /\ h' l !! "extraction_status" = Some (VStr st)
            /\ (extracted = true -> l ∈ samples)
            /\ (NoDup links -> l ∈ samples -> extracted = true))
    /\ (forall l, l ∈ links -> truthy (link_url (h l)) = false -> h' l = h l).
Proof.
  intros Hplat.
  destruct (links_loop_spec links [] w h Hplat)
    as (w' & h' & Hloop & _ & _ & _ & Hskip & Hrec).
  exists (winners self links w h), w', h'. rewrite extract_voice_samples_loop.
  split; [exact Hloop|]. split; [|exact Hskip].
  intros l Hl Hurl.
  destruct (Hrec l Hl Hurl) as (r & (He & Hs & _) & Hwin & Hnodup).
  exists (success r), (status r). auto.
Qed.

End Batch.

(** ** The batch on concrete inputs *)

(** C3, the claim as first stated, fails: a link with an empty URL is
    passed over. The call returns no sample, and the record of the link
    is as before, with neither an extraction nor a failure on it. *)
Lemma link_without_url_left_without_outcome :
  let run1 := extract_voice_samples default_config [1%nat] (quiet 0) three_links in
  run1.1.1 = Returned []
  /\ run1.2 1%nat = link_without_url
  /\ unrecorded (run1.2 1%nat)
  /\ calls run1.1.2 = [].
Proof. intros run1. repeat apply conj; vm_compute; reflexivity. Qed.

Lemma three_links_platform_text :
  Forall (fun l => platform_text (three_links l) = true) [0%nat; 1%nat; 2%nat].
Proof. repeat constructor. Defined.

Lemma every_link_with_url_gets_an_outcome_witness :
  Forall (fun l => platform_text (three_links l) = true) [0%nat; 1%nat; 2%nat]
  /\ exists samples w' h',
       extract_voice_samples default_config [0%nat; 1%nat; 2%nat]
                             three_links_world three_links
         = (Returned samples, w', h')
       /\ (forall l, l ∈ [0%nat; 1%nat; 2%nat] ->
             truthy (link_url (three_links l)) = true ->
             exists extracted st,
               h' l !! "sample_extracted" = Some (VBool extracted)
               /\ h' l !! "extraction_status" = Some (VStr st)
               /\ (extracted = true -> l ∈ samples)
               /\ (NoDup [0%nat; 1%nat; 2%nat] -> l ∈ samples -> extracted = true))
       /\ (forall l, l ∈ [0%nat; 1%nat; 2%nat] ->
             truthy (link_url (three_links l)) = false -> h' l = three_links l).
Proof.
  split; [exact three_links_platform_text|].
  exact (every_link_with_url_gets_an_outcome default_config [0%nat; 1%nat; 2%nat]
           three_links_world three_links three_links_platform_text).
Defined.


Lemma extract_returns_successful_subsequence_witness :
  Forall (fun l => platform_text (three_links l) = true) [0%nat; 1%nat; 2%nat]
  /\ (exists w' h',
        extract_voice_samples default_config [0%nat; 1%nat; 2%nat]
                              three_links_world three_links
          = (Returned (winners default_config [0%nat; 1%nat; 2%nat]
                               three_links_world three_links), w', h')
        /\ List.map fst (outcomes default_config [0%nat; 1%nat; 2%nat]
                                  three_links_world three_links)
           = [0%nat; 1%nat; 2%nat]).
Proof.
  split; [exact three_links_platform_text|].
  exact (proj1 (proj2 (extract_returns_successful_subsequence default_config
                         [0%nat; 1%nat; 2%nat] three_links_world three_links))
               three_links_platform_text).
Defined.

(** The same batch, run: the second rung wrote the file of link 0, whose
    record has the configured 192 as quality and the 128 of the rung in
    its status; link 1 was skipped; link 2 failed and is not returned. *)
Example three_links_run :
  let run1 := extract_voice_samples default_config [0%nat; 1%nat; 2%nat]
                                    three_links_world three_links in
  run1.1.1 = Returned [0%nat]
  /\ winners default_config [0%nat; 1%nat; 2%nat] three_links_world three_links = [0%nat]
  /\ run1.2 0%nat !! "sample_quality" = Some (VStr "192")
  /\ run1.2 0%nat !! "extraction_status"
     = Some (VStr "youtube_success_creator1_quality_128_duration_3600s")
  /\ run1.2 1%nat = link_without_url
  /\ run1.2 2%nat !! "sample_extracted" = Some (VBool false)
  /\ run1.2 2%nat !! "extraction_status"
     = Some (VStr "no_recent_vods_found_for_streamer").
Proof. intros run1. repeat apply conj; vm_compute; reflexivity. Qed.

(** * Further properties of the extractor *)

(** ** File names *)

Section SanitizeMore.

Context {W : Type} `{Host W}.

Lemma sanitize_result_plain (s r : string) :
  sanitize_result s = Some r ->
  all_chars plain r = true /\ (2 <= String.length r <= 20)%nat.
Proof.
  unfold sanitize_result.
  destruct (Py.is_empty s || _is_empty_value (VStr s)); [discriminate|].
  destruct (Py.is_empty (sanitize_steps s)
            || (String.length (sanitize_steps s) <? 2)%nat) eqn:Hshort;
    [discriminate|].
  intros [= <-]. apply orb_false_iff in Hshort as [_ Hshort].
  apply Nat.ltb_ge in Hshort.
  split; [apply sanitize_steps_plain|].
  split; [exact Hshort|apply sanitize_steps_length].
Qed.

(** Whatever the name and the clock, [_sanitize_filename] returns a name
    of 2 to 20 characters, each a lower-case letter, a digit or an
    underscore. *)
Theorem sanitize_filename_safe (filename : string) (w : W) :
  all_chars plain (_sanitize_filename filename w).1 = true
  /\ (2 <= String.length (_sanitize_filename filename w).1 <= 20)%nat.
Proof.
  rewrite sanitize_filename_result.
  destruct (sanitize_result filename) as [r|] eqn:Hres.
  - simpl. eapply sanitize_result_plain, Hres.
  - destruct (time_time w) as [t w1]. cbn [fst].
    eapply sanitize_result_plain, sanitize_result_user_id.
Qed.

Lemma lower_char_idempotent (c : ascii) :
  Py.lower_char (Py.lower_char c) = Py.lower_char c.
Proof. by_char c. Qed.

Lemma kept_class_lower (c : ascii) :
  (Py.isword (Py.lower_char c) || Py.isspace (Py.lower_char c)
   || is_hyphen (Py.lower_char c))
  = (Py.isword c || Py.isspace c || is_hyphen c).
Proof. by_char c. Qed.

Lemma lower_idempotent (s : string) : Py.lower (Py.lower s) = Py.lower s.
Proof.
  induction s as [|c r IH]; simpl; [reflexivity|].
  rewrite lower_char_idempotent, IH. reflexivity.
Qed.

Lemma keep_lower (s : string) :
  Py.keep (fun c => Py.isword c || Py.isspace c || is_hyphen c) (Py.lower s)
  = Py.lower (Py.keep (fun c => Py.isword c || Py.isspace c || is_hyphen c) s).
Proof.
  induction s as [|c r IH]; simpl; [reflexivity|].
  rewrite kept_class_lower.
  destruct (Py.isword c || Py.isspace c || is_hyphen c); simpl; rewrite IH; reflexivity.
Qed.

Lemma sanitize_result_lower (s : string) :
  sanitize_result (Py.lower s) = sanitize_result s.
Proof.
  unfold sanitize_result, _is_empty_value, py_str, sanitize_steps.
  rewrite keep_lower, !lower_idempotent.
  destruct s; reflexivity.
Qed.

(** Upper and lower case are not told apart: a name and its lower-case
    form are given the same file name. *)
Theorem sanitize_filename_ignores_case (filename : string) (w : W) :
  _sanitize_filename (Py.lower filename) w = _sanitize_filename filename w.
Proof. rewrite !sanitize_filename_result, sanitize_result_lower. reflexivity. Qed.

End SanitizeMore.

(** ** User names from the URL *)

Section UrlNames.

Lemma match_group_nonempty (excl tl s g : string) :
  Py.match_group excl tl s = Some g -> Py.is_empty g = false.
Proof.
  destruct s as [|c r]; simpl; [discriminate|].
  destruct (Py.in_class excl c); [discriminate|].
  destruct (Py.match_group excl tl r); [intros [= <-]; reflexivity|].
  destruct (Py.startswith tl r); [intros [= <-]; reflexivity|discriminate].
Qed.

Lemma re_search_nonempty (p : Py.pattern) (s g : string) :
  Py.re_search p s = Some g -> Py.is_empty g = false.
Proof.
  induction s as [|c r IH]; cbn [Py.re_search].
  - destruct (Py.match_here p "") eqn:Hm; [|discriminate].
    intros [= <-]. unfold Py.match_here in Hm.
    destruct (Py.startswith (Py.literal p) ""); [|discriminate].
    eapply match_group_nonempty, Hm.
  - destruct (Py.match_here p (String c r)) eqn:Hm; [|exact IH].
    intros [= <-]. unfold Py.match_here in Hm.
    destruct (Py.startswith (Py.literal p) (String c r)); [|discriminate].
    eapply match_group_nonempty, Hm.
Qed.

Lemma length_take_min (n : nat) (s : string) :
  String.length (Py.take n s) = Nat.min n (String.length s).
Proof.
  revert s. induction n as [|n IH]; intros [|c r]; simpl; try reflexivity.
  rewrite IH. reflexivity.
Qed.

Lemma length_drop (n : nat) (s : string) :
  String.length (Py.drop n s) = (String.length s - n)%nat.
Proof.
  revert s. induction n as [|n IH]; intros [|c r]; simpl; try reflexivity.
  apply IH.
Qed.

Lemma length_append (a b : string) :
  String.length (String.append a b) = (String.length a + String.length b)%nat.
Proof. induction a as [|c a IH]; simpl; [reflexivity|]. rewrite IH. reflexivity. Qed.

Lemma length_lower (s : string) : String.length (Py.lower s) = String.length s.
Proof. induction s as [|c r IH]; simpl; [reflexivity|]. rewrite IH. reflexivity. Qed.

Lemma take_all (n : nat) (s : string) :
  (String.length s <= n)%nat -> Py.take n s = s.
Proof.
  revert s. induction n as [|n IH]; intros [|c r]; simpl; try reflexivity; try lia.
  intros Hlen. rewrite IH by lia. reflexivity.
Qed.

Lemma length_nonempty (s : string) :
  Py.is_empty s = false -> (1 <= String.length s)%nat.
Proof. destruct s; simpl; [discriminate|lia]. Qed.

Lemma youtube_username_length (patterns : list Py.pattern) (u name : string) :
  youtube_username patterns u = Some name ->
  (1 <= String.length name <= 20)%nat /\ Py.startswith "UC" name = false.
Proof.
  induction patterns as [|p ps IH]; cbn [youtube_username]; [discriminate|].
  destruct (Py.re_search p u) as [g|] eqn:Hg; [|exact IH].
  pose proof (length_nonempty _ (re_search_nonempty _ _ _ Hg)) as Hne.
  cbv zeta.
  destruct (Py.startswith "UC" (Py.take 20 g)) eqn:Huc; cbn [negb];
    intros Hname; apply (inj Some) in Hname; subst name.
  - split; [|reflexivity].
    rewrite length_append. unfold Py.last_n.
    rewrite length_drop, length_take_min. simpl String.length. lia.
  - split; [|exact Huc]. rewrite length_take_min. lia.
Qed.

Lemma twitch_username_length (patterns : list Py.pattern) (u name : string) :
  twitch_username patterns u = Some name ->
  (1 <= String.length name <= 20)%nat
  /\ string_in (Py.lower name) reserved_words = false.
Proof.
  induction patterns as [|p ps IH]; cbn [twitch_username]; [discriminate|].
  destruct (Py.re_search p u) as [g|] eqn:Hg; [|exact IH].
  pose proof (length_nonempty _ (re_search_nonempty _ _ _ Hg)) as Hne.
  destruct (string_in (Py.lower g) ["videos"; "clips"; "collections"]) eqn:Hres;
    cbn [negb]; [exact IH|].
  intros Hname; apply (inj Some) in Hname; subst name. split; [rewrite length_take_min; lia|].
  destruct (Nat.le_gt_cases (String.length g) 20) as [Hshort|Hlong].
  - rewrite (take_all _ _ Hshort). exact Hres.
  - assert (Hlen : String.length (Py.lower (Py.take 20 g)) = 20%nat)
      by (rewrite length_lower, length_take_min; lia).
    set (x := Py.lower (Py.take 20 g)) in *.
    unfold string_in, reserved_words. cbn [existsb].
    repeat match goal with
           | |- context [String.eqb ?a ?b] =>
               destruct (String.eqb_spec a b) as [E|_];
               [rewrite E in Hlen; simpl in Hlen; lia|]
           end.
    reflexivity.
Qed.

(** A name taken from a URL has 1 to 20 characters. *)
Theorem url_username_length (url : pyval) (name : string) :
  _extract_username_from_url url = Some name ->
  (1 <= String.length name <= 20)%nat.
Proof.
  unfold _extract_username_from_url. destruct url as [|b|n|u]; try discriminate.
  destruct (Py.is_empty u); [discriminate|].
  destruct (Py.contains "youtube.com" u || Py.contains "youtu.be" u).
  - intros Hy. apply (youtube_username_length _ _ _ Hy).
  - destruct (Py.contains "twitch.tv" u); [|discriminate].
    intros Ht. apply (twitch_username_length _ _ _ Ht).
Qed.


End UrlNames.

Lemma url_username_length_witness :
  _extract_username_from_url
    (VStr "https://www.twitch.tv/some_streamer_with_a_very_long_name/videos")
    = Some "some_streamer_with_a"
  /\ (1 <= String.length "some_streamer_with_a" <= 20)%nat.
Proof.
  split; [vm_compute; reflexivity|].
  apply (url_username_length
           (VStr "https://www.twitch.tv/some_streamer_with_a_very_long_name/videos")).
  vm_compute. reflexivity.
Defined.


(** ** User names from the record *)

Section FieldNames.

Context {W : Type} `{Host W}.




Lemma username_from_fields_nonempty (link_data : dict) (fields : list string)
    (name : string) :
  username_from_fields link_data fields = Some name -> Py.is_empty name = false.
Proof.
  induction fields as [|field rest IH]; simpl; [discriminate|].
  destruct (truthy _ && negb (_is_empty_value _)); [|exact IH].
  destruct (Py.is_empty (Py.strip (py_str (dict_get link_data field VNone)))) eqn:He;
    simpl; [exact IH|].
  destruct (_is_descriptive_text _); simpl; [exact IH|].
  intros [= <-]. exact He.
Qed.

(** [_extract_best_username] never returns the empty name, and it reads
    the clock only for a record without URL: with a true URL the world
    is left as it was. *)
Theorem best_username_nonempty (link_data : dict) (url : pyval) (w : W) :
  Py.is_empty (_extract_best_username link_data url w).1 = false
  /\ (truthy url = true -> (_extract_best_username link_data url w).2 = w).
Proof.
  assert (Hrest : Py.is_empty (username_without_url link_data url w).1 = false
                  /\ (truthy url = true -> (username_without_url link_data url w).2 = w)).
  { unfold username_without_url.
    destruct (username_from_fields link_data _) as [name|] eqn:Hfields.
    - split; [apply (username_from_fields_nonempty _ _ _ Hfields)|reflexivity].
    - destruct (truthy url); [split; reflexivity|].
      destruct (time_time w) as [t w1]. split; [reflexivity|discriminate]. }
  unfold _extract_best_username.
  destruct (_extract_username_from_url url) as [u|]; [|exact Hrest].
  destruct (Py.is_empty u) eqn:Hu; simpl; [exact Hrest|].
  destruct (2 <? String.length u)%nat; [|exact Hrest].
  split; [exact Hu|reflexivity].
Qed.

End FieldNames.


Lemma best_username_nonempty_witness :
  truthy (VStr "https://example.com/x") = true
  /\ (_extract_best_username ∅ (VStr "https://example.com/x") (quiet 5)).2 = quiet 5.
Proof.
  split; [reflexivity|].
  exact (proj2 (best_username_nonempty ∅ (VStr "https://example.com/x") (quiet 5))
               eq_refl).
Defined.

(** ** Extraction results *)

Section Results.

Context {W : Type} `{Host W}.
Variable self : config.

Lemma attempt_some cmd timeout output_path w size w1 :
  attempt cmd timeout output_path w = (Some size, w1) ->
  path_size output_path w1 = Some size.
Proof.
  unfold attempt. destruct (run cmd timeout w) as [[rc out|m|m] w'];
    try discriminate.
  destruct (rc =? 0); [|discriminate].
  intros Heq. congruence.
Qed.

Lemma failure_complete output_path duration st (w : W) :
  result_complete output_path duration (failure st) w.
Proof. unfold result_complete. simpl. auto. Qed.

Lemma ladder_complete command succeeded exhausted output_path duration rungs :
  forall w,
    result_complete output_path duration
      (ladder command succeeded exhausted output_path duration rungs w).1
      (ladder command succeeded exhausted output_path duration rungs w).2.
Proof.
  induction rungs as [|[q t] rest IH]; intros w; simpl.
  - apply failure_complete.
  - destruct (attempt (command q) t output_path w) as [[size|] w1] eqn:Hatt.
    + simpl. unfold result_complete. simpl.
      repeat split. exists size. split; [reflexivity|].
      eapply attempt_some, Hatt.
    + apply IH.
Qed.

Lemma try_get_recent_twitch_vod_complete extract videos_url output_path nickname duration w :
  (forall url w0 r w1,
      extract url output_path nickname duration w0 = (inr r, w1) ->
      result_complete output_path duration r w1) ->
  result_complete output_path duration
    (_try_get_recent_twitch_vod extract videos_url output_path nickname duration w).1
    (_try_get_recent_twitch_vod extract videos_url output_path nickname duration w).2.
Proof.
  intros Hextract.
  pose proof (try_get_recent_twitch_vod_lookup extract videos_url output_path
                nickname duration w) as Hlookup.
  inversion Hlookup; try apply failure_complete.
  eapply Hextract. eassumption.
Qed.

Lemma extract_twitch_sample_complete (depth : nat) :
  forall url output_path nickname duration w r w1,
    _extract_twitch_sample self depth url output_path nickname duration w = (inr r, w1) ->
    result_complete output_path duration r w1.
Proof.
  assert (Hstep : forall extract url output_path nickname duration w r w1,
    (forall url' w0 r' w1',
        extract url' output_path nickname duration w0 = (inr r', w1') ->
        result_complete output_path duration r' w1') ->
    (match url with
     | VStr u =>
         if negb (Py.contains "/videos/" u) && negb (Py.contains "/clip/" u)
            && negb (Py.endswith "/videos" u)
         then
           let '(r0, w0) :=
             _try_get_recent_twitch_vod extract
               (String.append (Py.rstrip_by (Py.is_code 47) u) "/videos")
               output_path nickname duration w in
           (Py.ret r0, w0)
         else
           let '(r0, w0) :=
             ladder (twitch_command url output_path duration)
                    (twitch_success nickname duration)
                    (twitch_exhausted nickname duration)
                    output_path duration (twitch_options self duration) w in
           (Py.ret r0, w0)
     | _ => (Py.raise Py.TypeError, w)
     end) = (inr r, w1) ->
    result_complete output_path duration r w1).
  { intros extract url output_path nickname duration w r w1 Hextract.
    destruct url as [|b|n|u]; try discriminate.
    destruct (negb (Py.contains "/videos/" u) && negb (Py.contains "/clip/" u)
              && negb (Py.endswith "/videos" u)).
    - pose proof (try_get_recent_twitch_vod_complete extract
                    (String.append (Py.rstrip_by (Py.is_code 47) u) "/videos")
                    output_path nickname duration w Hextract) as Hc.
      destruct (_try_get_recent_twitch_vod extract _ output_path nickname duration w)
        as [r0 w0].
      intros [= <- <-]. exact Hc.
    - pose proof (ladder_complete (twitch_command (VStr u) output_path duration)
                    (twitch_success nickname duration)
                    (twitch_exhausted nickname duration)
                    output_path duration (twitch_options self duration) w) as Hc.
      destruct (ladder _ _ _ output_path duration _ w) as [r0 w0].
      intros [= <- <-]. exact Hc. }
  induction depth as [|d IH]; intros url output_path nickname duration w r w1 Hcall.
  - apply (Hstep (fun _ _ _ _ w' => (Py.raise Py.RecursionError, w'))
                 url output_path nickname duration w r w1).
    + intros url' w0 r' w1' Hraise. discriminate Hraise.
    + exact Hcall.
  - apply (Hstep (_extract_twitch_sample self d)
                 url output_path nickname duration w r w1).
    + intros url' w0 r' w1' Hinner. eapply IH, Hinner.
    + exact Hcall.
Qed.

Lemma extract_audio_sample_complete_aux url filename platform nickname duration w :
  result_complete
    (Py.path_join (output_dir self) (String.append filename ".mp3")) duration
    (_extract_audio_sample self url filename platform nickname duration w).1
    (_extract_audio_sample self url filename platform nickname duration w).2.
Proof.
  unfold _extract_audio_sample.
  destruct (py_eq_str platform "youtube").
  - apply ladder_complete.
  - destruct (py_eq_str platform "twitch"); [|apply failure_complete].
    destruct (_extract_twitch_sample self recursion_limit url _ nickname duration w)
      as [[e|r] w1] eqn:Hcall; [apply failure_complete|].
    eapply extract_twitch_sample_complete, Hcall.
Qed.

(** Whatever the URL, the platform and the host, the result of
    [_extract_audio_sample] is complete: a success names the file
    [output_dir/filename.mp3], which exists in the world the call leaves,
    with the size recorded, and carries the duration asked for; a failure
    carries no file, no duration and no size. *)
Theorem extract_audio_sample_result_complete
    (url : pyval) (filename : string) (platform : pyval) (nickname : string)
    (duration : Z) (w : W) :
  result_complete
    (Py.path_join (output_dir self) (String.append filename ".mp3")) duration
    (_extract_audio_sample self url filename platform nickname duration w).1
    (_extract_audio_sample self url filename platform nickname duration w).2.
Proof. apply extract_audio_sample_complete_aux. Qed.

(** ** Timeouts *)

(** The timeouts of a ladder are at least the base values, so positive
    whatever the duration; they decrease from rung to rung; they add up to
    840 (YouTube) or 1300 (Twitch) seconds per multiple of five minutes;
    and a longer duration never shortens a timeout. *)
Theorem ladder_timeouts (duration duration' : Z) :
  Forall (fun t => 120 <= t) (List.map snd (youtube_options self duration))
  /\ Forall (fun t => 250 <= t) (List.map snd (twitch_options self duration))
  /\ StronglySorted Z.gt (List.map snd (youtube_options self duration))
  /\ StronglySorted Z.gt (List.map snd (twitch_options self duration))
  /\ fold_right Z.add 0 (List.map snd (youtube_options self duration))
     = 840 * Z.max 1 (duration / 300)
  /\ fold_right Z.add 0 (List.map snd (twitch_options self duration))
     = 1300 * Z.max 1 (duration / 300)
  /\ (duration <= duration' ->
      Forall2 Z.le (List.map snd (youtube_options self duration))
                   (List.map snd (youtube_options self duration'))
      /\ Forall2 Z.le (List.map snd (twitch_options self duration))
                      (List.map snd (twitch_options self duration'))).
Proof.
  unfold youtube_options, twitch_options, timeout_multiplier. simpl.
  pose proof (Z.le_max_l 1 (duration / 300)) as Hm.
  set (m := Z.max 1 (duration / 300)) in *.
  repeat split.
  - repeat constructor; lia.
  - repeat constructor; lia.
  - repeat constructor; lia.
  - repeat constructor; lia.
  - lia.
  - lia.
  - assert (Hmm : m <= Z.max 1 (duration' / 300)).
    { unfold m. pose proof (Z.div_le_mono duration duration' 300 ltac:(lia) H0). lia. }
    repeat constructor; lia.
  - assert (Hmm : m <= Z.max 1 (duration' / 300)).
    { unfold m. pose proof (Z.div_le_mono duration duration' 300 ltac:(lia) H0). lia. }
    repeat constructor; lia.
Qed.

(** ** The resolved duration *)

(** With [min_duration <= max_duration], the duration resolved for a link
    lies between the two, whatever the probe does. *)
Theorem optimal_duration_in_range (url platform : pyval) (w : W) :
  min_duration self <= max_duration self ->
  min_duration self <= (_get_optimal_duration self url platform w).1
                    <= max_duration self.
Proof.
  intros Hrange. unfold _get_optimal_duration.
  destruct (run (duration_probe url) 30 w) as [[rc out|m|m] w1]; simpl; try lia.
  destruct ((rc =? 0) && negb (Py.is_empty (Py.strip out))); simpl; try lia.
  destruct (0 <? _parse_duration_string (Py.strip out)); simpl; try lia.
  apply clamp_bounds, Hrange.
Qed.

End Results.

Lemma ladder_timeouts_witness :
  45 <= 3600
  /\ Forall2 Z.le (List.map snd (youtube_options default_config 45))
                  (List.map snd (youtube_options default_config 3600)).
Proof.
  assert (Hle : 45 <= 3600) by lia.
  split; [exact Hle|].
  exact (proj1 (proj2 (proj2 (proj2 (proj2 (proj2 (proj2
           (ladder_timeouts default_config 45 3600)))))) Hle)).
Defined.

Lemma optimal_duration_in_range_witness :
  30 <= 3600
  /\ 30 <= (_get_optimal_duration default_config (VStr "https://youtu.be/abc")
              (VStr "youtube") (scripted [(Completed 0 "0:00:07", None)])).1
        <= 3600.
Proof.
  split; [lia|].
  apply (optimal_duration_in_range default_config). simpl. lia.
Defined.

(** ** What the batch writes on a record *)

Section Records.

Context {W : Type} `{Host W}.
Variable self : config.

Lemma dict_update_other (items : list (string * pyval)) :
  forall (d : dict) (k : string),
    ~ In k (List.map fst items) -> dict_update d items !! k = d !! k.
Proof.
  unfold dict_update.
  induction items as [|[k0 v0] rest IH]; intros d k Hk; simpl; [reflexivity|].
  rewrite IH by (intros Hin; apply Hk; right; exact Hin).
  apply lookup_insert_ne. intros ->. apply Hk. left. reflexivity.
Qed.

Lemma process_link_other link w h l k :
  ~ In k result_keys ->
  (process_link self link w h).2 l !! k = h l !! k.
Proof.
  intros Hk. pose proof (process_link_store self link w h) as Hstore.
  destruct (process_link self link w h) as [[[e|[|r]] w1] h1]; simpl;
    try (subst h1; reflexivity).
  destruct Hstore as (dur & su & fn & sp & un & ->).
  destruct (decide (link = l)) as [<-|Hne].
  - rewrite fn_lookup_insert. apply dict_update_other. exact Hk.
  - rewrite fn_lookup_insert_ne by exact Hne. reflexivity.
Qed.

Lemma links_loop_other (links : list ref) :
  forall acc w h l k,
    ~ In k result_keys ->
    (links_loop self links acc w h).2 l !! k = h l !! k.
Proof.
  induction links as [|link rest IH]; intros acc w h l k Hk; [reflexivity|].
  cbn [links_loop].
  pose proof (process_link_other link w h l k Hk) as Hstep.
  destruct (process_link self link w h) as [[[e|[|r]] w1] h1]; simpl in Hstep.
  - exact Hstep.
  - rewrite IH by exact Hk. exact Hstep.
  - destruct (success r); rewrite IH by exact Hk; exact Hstep.
Qed.

(** The batch changes a record in the ten result fields only: any other
    field of any record, [url], [platform_type] and the identity fields
    among them, reads after the call as before it, however the call
    ends. The [file_size] of an extraction result is among the fields not
    written. *)
Theorem batch_writes_result_fields_only
    (links : list ref) (w : W) (h : store) (l : ref) (k : string) :
  ~ In k result_keys ->
  (extract_voice_samples self links w h).2 l !! k = h l !! k.
Proof.
  intros Hk. rewrite extract_voice_samples_loop. apply links_loop_other, Hk.
Qed.


(** A platform is matched exactly: for a record whose platform is a
    string other than [youtube] and [twitch], [None], or missing (read as
    [unknown]), the attempt fails with [unsupported_platform] and the
    platform as it was given, and the failure is written on the record. *)
Theorem unsupported_platform_recorded (link : ref) (w : W) (h : store) :
  truthy (link_url (h link)) = true ->
  platform_text (h link) = true ->
  dict_get (h link) "platform_type" (VStr "unknown") <> VStr "youtube" ->
  dict_get (h link) "platform_type" (VStr "unknown") <> VStr "twitch" ->
  exists w1 h1,
    process_link self link w h
      = (inr (Attempted
                (failure (String.append "unsupported_platform: "
                            (py_str (dict_get (h link) "platform_type"
                                              (VStr "unknown")))))),
         w1, h1)
    /\ h1 link !! "sample_extracted" = Some (VBool false)
    /\ h1 link !! "extraction_status"
       = Some (VStr (String.append "unsupported_platform: "
                       (py_str (dict_get (h link) "platform_type"
                                         (VStr "unknown")))))
    /\ h1 link !! "sample_file" = Some VNone.
Proof.
  intros Hurl Hplat Hyt Htw. unfold link_url in Hurl. unfold process_link.
  destruct (_extract_best_username (h link) (dict_get (h link) "url" (VStr "")) w)
    as [username w0].
  rewrite Hurl. simpl negb. cbv iota.
  destruct (_get_optimal_duration self _ _ w0) as [dur w2].
  destruct (_sanitize_filename username w2) as [su w3].
  destruct (safe_platform_text _ Hplat) as [sp ->].
  destruct (time_time w3) as [ts w4].
  set (platform := dict_get (h link) "platform_type" (VStr "unknown")) in *.
  assert (Hy : py_eq_str platform "youtube" = false).
  { destruct platform as [|b|n|p]; try reflexivity. simpl.
    destruct (String.eqb_spec p "youtube"); [congruence|reflexivity]. }
  assert (Ht : py_eq_str platform "twitch" = false).
  { destruct platform as [|b|n|p]; try reflexivity. simpl.
    destruct (String.eqb_spec p "twitch"); [congruence|reflexivity]. }
  unfold _extract_audio_sample. rewrite Hy, Ht.
  do 2 eexists. split; [reflexivity|].
  rewrite fn_lookup_insert. unfold dict_update, result_fields.
  cbn [fold_left fst snd failure success status file_path opt_str].
  repeat split;
    repeat (first [rewrite lookup_insert_eq; reflexivity
                  |rewrite lookup_insert_ne by discriminate]).
Qed.

End Records.

Lemma batch_writes_result_fields_only_witness :
  ~ In "file_size" result_keys
  /\ (extract_voice_samples default_config [0%nat; 1%nat; 2%nat]
                            three_links_world three_links).2 0%nat !! "file_size"
     = three_links 0%nat !! "file_size".
Proof.
  assert (Hk : ~ In "file_size" result_keys).
  { unfold result_keys. simpl. intros Hin.
    repeat (destruct Hin as [Hin|Hin]; [discriminate Hin|]). exact Hin. }
  split; [exact Hk|].
  exact (batch_writes_result_fields_only default_config [0%nat; 1%nat; 2%nat]
           three_links_world three_links 0%nat "file_size" Hk).
Defined.

(** A record with a URL and no platform. *)
Lemma unsupported_platform_recorded_witness :
  let h : store := fun _ => {[ "url" := VStr "https://www.youtube.com/@creator1" ]} in
  exists w1 h1,
    process_link default_config 0%nat (quiet 0) h
      = (inr (Attempted (failure "unsupported_platform: unknown")), w1, h1)
    /\ h1 0%nat !! "sample_extracted" = Some (VBool false)
    /\ h1 0%nat !! "extraction_status"
       = Some (VStr "unsupported_platform: unknown")
    /\ h1 0%nat !! "sample_file" = Some VNone.
Proof.
  intros h.
  refine (unsupported_platform_recorded default_config 0%nat (quiet 0) h _ _ _ _).
  - reflexivity.
  - reflexivity.
  - vm_compute. discriminate.
  - vm_compute. discriminate.
Defined.


(** ** The platform methods *)

Section Platforms.

Context {W : Type} `{Host W}.
Variable self : config.

(** The YouTube method has two kinds of result and no other: the failure
    after all rungs, or a success whose status names one of the four
    qualities of the ladder. *)
Theorem youtube_sample_outcomes
    (url : pyval) (output_path nickname : string) (duration : Z) (w : W) :
  (_extract_youtube_sample self url output_path nickname duration w).1
    = failure (youtube_exhausted nickname duration)
  \/ exists q size,
       In q [quality self; "128"; "96"; "64"]
       /\ (_extract_youtube_sample self url output_path nickname duration w).1
          = Result true (Some output_path) (youtube_success nickname duration q)
                   (Some duration) (Some size).
Proof.
  unfold _extract_youtube_sample.
  destruct (ladder_cases (youtube_command url output_path duration) output_path
              (youtube_options self duration) w)
    as [[w1 Hall]|(pre & q & t & post & w1 & size & w2 & Hsplit & Hpre & Hwin)].
  - left. rewrite (ladder_exhausted _ _ _ _ _ _ _ _ Hall). reflexivity.
  - right. exists q, size. split.
    + change [quality self; "128"; "96"; "64"]
        with (List.map fst (youtube_options self duration)).
      rewrite Hsplit, map_app. apply in_or_app. right. left. reflexivity.
    + rewrite Hsplit.
      rewrite (ladder_first_success _ _ _ _ _ _ _ _ _ _ _ _ _ Hpre Hwin).
      reflexivity.
Qed.

(** For a string the Twitch method returns a result at every nesting
    depth. *)
Lemma twitch_sample_returns
    (depth : nat) (u output_path nickname : string) (duration : Z) (w : W) :
  exists r w1,
    _extract_twitch_sample self depth (VStr u) output_path nickname duration w
      = (inr r, w1).
Proof.
  destruct depth; cbn [_extract_twitch_sample];
    destruct (negb (Py.contains "/videos/" u) && negb (Py.contains "/clip/" u)
              && negb (Py.endswith "/videos" u));
    match goal with
    | |- context [_try_get_recent_twitch_vod ?e ?v ?o ?n ?d ?w0] =>
        destruct (_try_get_recent_twitch_vod e v o n d w0) as [r w1]
    | |- context [ladder ?c ?s ?x ?o ?d ?l ?w0] =>
        destruct (ladder c s x o d l w0) as [r w1]
    end; exists r, w1; reflexivity.
Qed.

Lemma ladder_no_extraction_error command succeeded exhausted output_path duration rungs :
  extraction_error (failure exhausted) = false ->
  (forall q size,
      extraction_error (Result true (Some output_path) (succeeded q)
                               (Some duration) (Some size)) = false) ->
  forall w,
    extraction_error
      (ladder command succeeded exhausted output_path duration rungs w).1 = false.
Proof.
  intros Hexhausted Hsucceeded.
  induction rungs as [|[q t] rest IH]; intros w; simpl.
  - exact Hexhausted.
  - destruct (attempt (command q) t output_path w) as [[size|] w1].
    + apply Hsucceeded.
    + apply IH.
Qed.

Lemma try_get_recent_twitch_vod_no_extraction_error
      extract videos_url output_path nickname duration w :
  (forall url w0 r w1,
      extract url output_path nickname duration w0 = (inr r, w1) ->
      extraction_error r = false) ->
  extraction_error
    (_try_get_recent_twitch_vod extract videos_url output_path nickname duration w).1
    = false.
Proof.
  intros Hextract.
  pose proof (try_get_recent_twitch_vod_lookup extract videos_url output_path
                nickname duration w) as Hlookup.
  inversion Hlookup; try reflexivity.
  eapply Hextract. eassumption.
Qed.

(** The status of a result that the Twitch method returns is none that
    the [except] clause of [_extract_audio_sample] writes. *)
Lemma twitch_sample_no_extraction_error (depth : nat) :
  forall url output_path nickname duration w r w1,
    _extract_twitch_sample self depth url output_path nickname duration w = (inr r, w1) ->
    extraction_error r = false.
Proof.
  assert (Hstep : forall extract url output_path nickname duration w r w1,
    (forall url' w0 r' w1',
        extract url' output_path nickname duration w0 = (inr r', w1') ->
        extraction_error r' = false) ->
    (match url with
     | VStr u =>
         if negb (Py.contains "/videos/" u) && negb (Py.contains "/clip/" u)
            && negb (Py.endswith "/videos" u)
         then
           let '(r0, w0) :=
             _try_get_recent_twitch_vod extract
               (String.append (Py.rstrip_by (Py.is_code 47) u) "/videos")
               output_path nickname duration w in
           (Py.ret r0, w0)
         else
           let '(r0, w0) :=
             ladder (twitch_command url output_path duration)
                    (twitch_success nickname duration)
                    (twitch_exhausted nickname duration)
                    output_path duration (twitch_options self duration) w in
           (Py.ret r0, w0)
     | _ => (Py.raise Py.TypeError, w)
     end) = (inr r, w1) ->
    extraction_error r = false).
  { intros extract url output_path nickname duration w r w1 Hextract.
    destruct url as [|b|n|u]; try discriminate.
    destruct (negb (Py.contains "/videos/" u) && negb (Py.contains "/clip/" u)
              && negb (Py.endswith "/videos" u)).
    - pose proof (try_get_recent_twitch_vod_no_extraction_error extract
                    (String.append (Py.rstrip_by (Py.is_code 47) u) "/videos")
                    output_path nickname duration w Hextract) as Hc.
      destruct (_try_get_recent_twitch_vod extract _ output_path nickname duration w)
        as [r0 w0].
      intros [= <- <-]. exact Hc.
    - pose proof (ladder_no_extraction_error
                    (twitch_command (VStr u) output_path duration)
                    (twitch_success nickname duration)
                    (twitch_exhausted nickname duration)
                    output_path duration (twitch_options self duration)
                    eq_refl (fun _ _ => eq_refl) w) as Hc.
      destruct (ladder _ _ _ output_path duration _ w) as [r0 w0].
      intros [= <- <-]. exact Hc. }
  induction depth as [|d IH]; intros url output_path nickname duration w r w1 Hcall.
  - apply (Hstep (fun _ _ _ _ w' => (Py.raise Py.RecursionError, w'))
                 url output_path nickname duration w r w1).
    + intros url' w0 r' w1' Hraise. discriminate Hraise.
    + exact Hcall.
  - apply (Hstep (_extract_twitch_sample self d)
                 url output_path nickname duration w r w1).
    + intros url' w0 r' w1' Hinner. eapply IH, Hinner.
    + exact Hcall.
Qed.

Lemma prefix_empty (s : string) : String.prefix "" s = true.
Proof. destruct s; reflexivity. Qed.

Lemma py_eq_str_exclusive (platform : pyval) :
  py_eq_str platform "twitch" = true -> py_eq_str platform "youtube" = false.
Proof.
  destruct platform as [|b|n|p]; try discriminate. simpl.
  destruct (String.eqb_spec p "twitch") as [->|]; [reflexivity|discriminate].
Qed.

(** The [except] clause of [_extract_audio_sample] is reached in one
    case only: the platform is [twitch] and the URL is not a string, so
    that the first [in] test of the Twitch method raises. The result is
    then the [extraction_error_for_] failure that carries the first 100
    characters of the text of the [TypeError], and no process has been
    started. In every other case, whatever the processes do and however
    deep the method and the VOD lookup call each other, the status is not
    an [extraction_error_for_] one: the YouTube method, handed the same
    URL, ends in its all-qualities failure instead. *)
Theorem extraction_error_only_for_non_string_twitch_url
    (url : pyval) (filename : string) (platform : pyval) (nickname : string)
    (duration : Z) (w : W) :
  extraction_error (_extract_audio_sample self url filename platform nickname duration w).1
    = py_eq_str platform "twitch" && negb (is_str url)
  /\ (py_eq_str platform "twitch" = true ->
      is_str url = false ->
      _extract_audio_sample self url filename platform nickname duration w
        = (Result false None
                  ("extraction_error_for_" ++ nickname ++ ": "
                     ++ Py.take 100 (exn_text Py.TypeError))%string
                  None None, w))
  /\ (py_eq_str platform "youtube" = true ->
      is_str url = false ->
      _extract_audio_sample self url filename platform nickname duration w
        = (Result false None
                  ("youtube_failed_all_qualities_" ++ nickname
                     ++ "_duration_" ++ Py.str_of_int duration ++ "s")%string
                  None None, w)).
Proof.
  split; [|split].
  - unfold _extract_audio_sample.
    destruct (py_eq_str platform "youtube") eqn:Hyoutube.
    + assert (Htwitch : py_eq_str platform "twitch" = false).
      { destruct (py_eq_str platform "twitch") eqn:E; [|reflexivity].
        rewrite (py_eq_str_exclusive _ E) in Hyoutube. discriminate. }
      rewrite Htwitch. cbn [andb].
      apply ladder_no_extraction_error; [reflexivity|intros; reflexivity].
    + destruct (py_eq_str platform "twitch"); [|reflexivity].
      cbn [andb].
      destruct url as [|b|n|u];
        try (destruct recursion_limit; cbn; apply prefix_empty).
      cbn [is_str negb].
      destruct (_extract_twitch_sample self recursion_limit (VStr u) _ nickname duration w)
        as [[e|r] w1] eqn:Hcall.
      * destruct (twitch_sample_returns recursion_limit u
                    (Py.path_join (output_dir self) (String.append filename ".mp3"))
                    nickname duration w) as (r & w2 & Hreturns).
        rewrite Hreturns in Hcall. discriminate.
      * apply (twitch_sample_no_extraction_error _ _ _ _ _ _ _ _ Hcall).
  - intros Htwitch Hurl. unfold _extract_audio_sample.
    rewrite (py_eq_str_exclusive _ Htwitch), Htwitch.
    destruct url as [|b|n|u]; try discriminate Hurl;
      destruct recursion_limit; reflexivity.
  - intros Hyoutube Hurl. unfold _extract_audio_sample. rewrite Hyoutube.
    assert (Hrefused : forall q t w0,
               attempt (youtube_command url
                          (Py.path_join (output_dir self) (String.append filename ".mp3"))
                          duration q) t
                       (Py.path_join (output_dir self) (String.append filename ".mp3")) w0
               = (None, w0)).
    { intros q t w0. unfold attempt, run.
      destruct url as [|b|n|u]; try discriminate Hurl; reflexivity. }
    unfold _extract_youtube_sample, youtube_options. cbn [ladder].
    rewrite !Hrefused. reflexivity.
Qed.

(** The indirection through the listing is transparent: when the query
    on the [/videos] page of a channel finds an entry with a URL, the
    result is the one the method gives for that URL, called one level
    deeper in the world the query left. *)
Theorem channel_extraction_is_extraction_of_latest_vod
    (d : nat) (u output_path nickname : string) (duration : Z) (w : W)
    (stdout : string) (w1 : W) (line : string) (rest : list string)
    (vod_info : gmap string (option string)) (v : string) :
  Py.contains "/videos/" u = false ->
  Py.contains "/clip/" u = false ->
  Py.endswith "/videos" u = false ->
  run (vod_listing (String.append (Py.rstrip_by (Py.is_code 47) u) "/videos")) 120 w
    = (Completed 0 stdout, w1) ->
  listing_lines stdout = line :: rest ->
  json_loads line = JsonObject vod_info ->
  vod_info !! "title" <> Some None ->
  entry_url vod_info = VStr v ->
  v <> "" ->
  _extract_twitch_sample self (S d) (VStr u) output_path nickname duration w
    = _extract_twitch_sample self d (VStr v) output_path nickname duration w1.
Proof.
  intros Hvod Hclip Hpage Hrun Hlines Hjson Htitle Hurl Hv.
  destruct (twitch_sample_returns d v output_path nickname duration w1)
    as (r & w2 & Hinner).
  rewrite Hinner.
  cbn [_extract_twitch_sample]. rewrite Hvod, Hclip, Hpage.
  simpl negb. simpl andb. cbv iota.
  unfold _try_get_recent_twitch_vod. rewrite Hrun.
  assert (Hblank : Py.is_empty (Py.strip stdout) = false).
  { destruct (Py.is_empty (Py.strip stdout)) eqn:E; [|reflexivity].
    rewrite (listing_lines_blank _ E) in Hlines. discriminate. }
  rewrite Hblank. simpl andb. cbv iota.
  rewrite Hlines, Hjson, Hurl.
  assert (Htrue : truthy (VStr v) = true) by (destruct v; [congruence|reflexivity]).
  rewrite Htrue.
  destruct (vod_info !! "title") as [[title|]|]; try congruence;
    rewrite Hinner; reflexivity.
Qed.

End Platforms.

Lemma extraction_error_only_for_non_string_twitch_url_witness :
  _extract_audio_sample default_config (VInt 5) "nick_twitch_45s_1700000000"
                        (VStr "twitch") "nick" 45 second_rung_wins
    = (Result false None "extraction_error_for_nick: unsupported operand" None None,
       second_rung_wins)
  /\ _extract_audio_sample default_config VNone "nick_youtube_45s_1700000000"
                           (VStr "youtube") "nick" 45 second_rung_wins
     = (Result false None "youtube_failed_all_qualities_nick_duration_45s" None None,
        second_rung_wins).
Proof.
  split.
  - exact (proj1 (proj2 (extraction_error_only_for_non_string_twitch_url
                           default_config (VInt 5) "nick_twitch_45s_1700000000"
                           (VStr "twitch") "nick" 45 second_rung_wins))
                 eq_refl eq_refl).
  - exact (proj2 (proj2 (extraction_error_only_for_non_string_twitch_url
                           default_config VNone "nick_youtube_45s_1700000000"
                           (VStr "youtube") "nick" 45 second_rung_wins))
                 eq_refl eq_refl).
Defined.

Lemma channel_extraction_is_extraction_of_latest_vod_witness :
  let u := "https://www.twitch.tv/streamer" in
  let out := "voice_samples/streamer_twitch_45s_1700000000.mp3" in
  let w := scripted [(Completed 0 "vod-entry", None); (Completed 0 "", Some 2048)] in
  let w1 := (run (vod_listing "https://www.twitch.tv/streamer/videos") 120 w).2 in
  _extract_twitch_sample default_config 1 (VStr u) out "streamer" 45 w
    = _extract_twitch_sample default_config 0
        (VStr "https://www.twitch.tv/videos/1") out "streamer" 45 w1.
Proof.
  intros u out w w1.
  refine (channel_extraction_is_extraction_of_latest_vod default_config 0 u out
            "streamer" 45 w "vod-entry" w1 "vod-entry" []
            {[ "webpage_url" := Some "https://www.twitch.tv/videos/1" ]}
            "https://www.twitch.tv/videos/1" _ _ _ _ _ _ _ _ _);
    first [reflexivity | discriminate | vm_compute; discriminate].
Defined.
